(** * Invest Europe / Reframe Venture validator: a shallow embedding

    The validator reads a CSV export (metric id, value, status) of a
    portfolio company, a fund or a GP, classifies every metric of the
    report's metric universe into an outcome bucket, applies a list of
    cross-field relations and assembles a summary.  This file embeds the
    three [validate_metrics_by_*] functions with the helpers they call and
    states the properties of the specification over that embedding.

    Conventions.
    - A Python [str] is a [string]; each character stands for the Unicode
      code point of the same number (U+0000 to U+00FF).
    - A Python [int] is a [Z]; a Python [float] is a primitive binary64
      [float]; mixed arithmetic follows CPython (an [int] operand of a float
      operation is converted first, and the conversion can overflow).  The
      interpreter's optional cap on the length of int/str conversions
      ([sys.set_int_max_str_digits]) is taken as switched off.
    - A [dict] that is only read is a [gmap]; the buckets are lists of
      records, in append order.
    - A call that can raise returns a [result]. *)

From Stdlib Require Import ZArith String Ascii List Bool Lia.
From Stdlib Require Import PrimFloat SpecFloat FloatOps.
From stdpp Require Import gmap strings.

Local Open Scope string_scope.
Local Open Scope Z_scope.

(** ** Exceptions *)

Inductive exn : Type :=
| KeyError (key : string)
| TypeError
| ValueError
| UnboundLocalError (name : string)
| OverflowError
| ZeroDivisionError.

Inductive result (A : Type) : Type :=
| Ok (a : A)
| Raise (e : exn).
Arguments Ok {A} a.
Arguments Raise {A} e.

#[export] Instance result_ret : MRet result := fun A a => Ok a.
#[export] Instance result_bind : MBind result := fun A B k r =>
  match r with
  | Ok a => k a
  | Raise e => Raise e
  end.

#[export] Instance result_fmap : FMap result := fun A B f r =>
  match r with
  | Ok a => Ok (f a)
  | Raise e => Raise e
  end.

Definition returns {A} (r : result A) : bool :=
  match r with Ok _ => true | Raise _ => false end.

(** [for x in xs: st = body st x], stopping at the first exception. *)
Fixpoint for_each {S X : Type} (body : S -> X -> result S) (xs : list X) (st : S)
  : result S :=
  match xs with
  | [] => Ok st
  | x :: xs' => st' ← body st x; for_each body xs' st'
  end.

(** ** Strings *)

Definition code (c : ascii) : Z := Z.of_N (N_of_ascii c).

Definition chars (s : string) : list ascii := list_ascii_of_string s.
Definition text (cs : list ascii) : string := string_of_list_ascii cs.

Definition str_eqb (a b : string) : bool := bool_decide (a = b).
Definition in_list (x : string) (xs : list string) : bool := bool_decide (x ∈ xs).

(** [sep.join(xs)] *)
Fixpoint join (sep : string) (xs : list string) : string :=
  match xs with
  | [] => ""
  | [x] => x
  | x :: xs' => x +:+ sep +:+ join sep xs'
  end.

(** [needle in s] for strings. *)
Fixpoint has_prefix (p s : list ascii) : bool :=
  match p, s with
  | [], _ => true
  | _ :: _, [] => false
  | a :: p', b :: s' => bool_decide (a = b) && has_prefix p' s'
  end.

Fixpoint has_infix (p s : list ascii) : bool :=
  has_prefix p s ||
  match s with
  | [] => false
  | _ :: s' => has_infix p s'
  end.

Definition contains (s needle : string) : bool := has_infix (chars needle) (chars s).

(** Characters with a decimal value ([str.isdecimal]) and with a numeric
    value ([str.isnumeric]): the digits in both, and the superscripts
    U+00B2, U+00B3, U+00B9 and the fractions U+00BC to U+00BE in the second. *)
Definition is_decimal_char (c : ascii) : bool :=
  (48 <=? code c) && (code c <=? 57).

Definition is_numeric_char (c : ascii) : bool :=
  is_decimal_char c ||
  bool_decide (code c ∈ [178; 179; 185; 188; 189; 190]).

(** [s.isnumeric()]: at least one character, all of them numeric. *)
Definition isnumeric (s : string) : bool :=
  negb (str_eqb s "") && forallb is_numeric_char (chars s).

(** White space that [int()] and [float()] ignore around a literal. *)
Definition is_space_char (c : ascii) : bool :=
  bool_decide (code c ∈ [9; 10; 11; 12; 13; 32; 133; 160]).

Fixpoint lstrip (cs : list ascii) : list ascii :=
  match cs with
  | c :: cs' => if is_space_char c then lstrip cs' else cs
  | [] => []
  end.

Definition strip (cs : list ascii) : list ascii := rev (lstrip (rev (lstrip cs))).

Definition digit_value (c : ascii) : Z := code c - 48.

Definition digits_value (ds : list ascii) : Z :=
  fold_left (fun acc c => 10 * acc + digit_value c) ds 0.

(** [digit (["_"] digit)*]: the digits, without the underscores. *)
Fixpoint digitpart (cs : list ascii) (after_digit : bool) : option (list ascii) :=
  match cs with
  | [] => if after_digit then Some [] else None
  | c :: cs' =>
      if is_decimal_char c then cons c <$> digitpart cs' true
      else if bool_decide (c = "_"%char) && after_digit then digitpart cs' false
      else None
  end.

Definition split_sign (cs : list ascii) : bool * list ascii :=
  match cs with
  | c :: cs' =>
      if bool_decide (c = "-"%char) then (true, cs')
      else if bool_decide (c = "+"%char) then (false, cs')
      else (false, cs)
  | [] => (false, [])
  end.

(** [int(s)] for a string, base 10. *)
Definition py_int (s : string) : result Z :=
  let '(neg, body) := split_sign (strip (chars s)) in
  match digitpart body false with
  | None => Raise ValueError
  | Some ds => Ok (if neg then - digits_value ds else digits_value ds)
  end.

(** [str(n)] for an int. *)
Definition digit_char (d : Z) : ascii := ascii_of_N (Z.to_N (48 + d)).

Fixpoint pos_digits (fuel : nat) (n : Z) (acc : list ascii) : list ascii :=
  match fuel with
  | O => acc
  | S fuel' =>
      if n <? 10 then digit_char n :: acc
      else pos_digits fuel' (n / 10) (digit_char (n mod 10) :: acc)
  end.

Definition nat_digits (n : Z) : list ascii :=
  pos_digits (S (Z.to_nat (Z.log2 n))) n [].

Definition str_of_int (n : Z) : string :=
  if n <? 0 then text ("-"%char :: nat_digits (- n)) else text (nat_digits n).

(** ** Floats *)

Definition is_finite_sf (x : spec_float) : bool :=
  match x with
  | S754_zero _ | S754_finite _ _ _ => true
  | _ => false
  end.

(** The binary64 nearest to [n / d] (ties to even), for [0 <= n] and [0 < d]:
    the quotient is taken with at least 64 bits and a sticky last bit. *)
Definition nearest_ratio (neg : bool) (n d : Z) : spec_float :=
  if n =? 0 then S754_zero neg
  else
    let k := Z.max 0 (64 + Z.log2 d - Z.log2 n) in
    let q := (n * 2 ^ k) / d in
    let sticky := if (n * 2 ^ k) mod d =? 0 then 0 else 1 in
    let m := 2 * q + sticky in
    binary_normalize prec emax (if neg then - m else m) (- k - 1) neg.

(** The binary64 nearest to [m * 10 ^ e] for [0 <= m]. *)
Definition nearest_decimal (neg : bool) (m e : Z) : spec_float :=
  if 0 <=? e then nearest_ratio neg (m * 10 ^ e) 1
  else nearest_ratio neg m (10 ^ (- e)).

(** [float(n)] for an int, as in an int operand of a float operation. *)
Definition float_of_int (n : Z) : result float :=
  let x := binary_normalize prec emax n 0 false in
  if is_finite_sf x then Ok (SF2Prim x) else Raise OverflowError.

(** [a / b] for two ints: the nearest float to the exact quotient. *)
Definition int_truediv (a b : Z) : result float :=
  if b =? 0 then Raise ZeroDivisionError
  else
    let neg := xorb (a <? 0) (b <? 0) in
    let x := nearest_ratio neg (Z.abs a) (Z.abs b) in
    if is_finite_sf x then Ok (SF2Prim x) else Raise OverflowError.

(** Exact comparison of an int with a float, [None] against a nan. *)
Definition int_float_compare (n : Z) (x : float) : option comparison :=
  match Prim2SF x with
  | S754_nan => None
  | S754_infinity neg => Some (if neg then Gt else Lt)
  | S754_zero _ => Some (n ?= 0)
  | S754_finite neg m e =>
      let v := if neg then Z.neg m else Z.pos m in
      Some (if 0 <=? e then n ?= v * 2 ^ e else n * 2 ^ (- e) ?= v)
  end.

(** [round(x, 2)]: the exact value of [x] is rounded to two decimals, ties
    to even, and the decimal result is read back as a float. *)
Definition round_half_even (n d : Z) : Z :=
  let q := n / d in
  let r := n mod d in
  if (2 * r <? d) then q
  else if (d <? 2 * r) then q + 1
  else if Z.even q then q else q + 1.

Definition py_round2 (x : float) : float :=
  match Prim2SF x with
  | S754_finite neg m e =>
      if 0 <=? e then x
      else SF2Prim (nearest_ratio neg (round_half_even (Z.pos m * 100) (2 ^ (- e))) 100)
  | _ => x
  end.

(** [float(s)] for a string; [None] stands for [ValueError]. *)
Definition lower (c : ascii) : ascii :=
  if (65 <=? code c) && (code c <=? 90) then ascii_of_N (N_of_ascii c + 32) else c.

(** An underscore is accepted between two digits and dropped. *)
Fixpoint drop_underscores (after_digit : bool) (cs : list ascii) : option (list ascii) :=
  match cs with
  | [] => Some []
  | c :: cs' =>
      if bool_decide (c = "_"%char) then
        match cs' with
        | d :: _ =>
            if after_digit && is_decimal_char d then drop_underscores false cs' else None
        | [] => None
        end
      else cons c <$> drop_underscores (is_decimal_char c) cs'
  end.

Fixpoint span_digits (cs : list ascii) : list ascii * list ascii :=
  match cs with
  | c :: cs' =>
      if is_decimal_char c then let '(ds, r) := span_digits cs' in (c :: ds, r)
      else ([], cs)
  | [] => ([], [])
  end.

Definition is_nil {A} (l : list A) : bool := match l with [] => true | _ => false end.

Definition float_literal (neg : bool) (cs : list ascii) : option spec_float :=
  let word := text (map lower cs) in
  if str_eqb word "inf" || str_eqb word "infinity" then Some (S754_infinity neg)
  else if str_eqb word "nan" then Some S754_nan
  else
    let '(ip, r1) := span_digits cs in
    let '(fp, r2) :=
      match r1 with
      | c :: r => if bool_decide (c = "."%char) then span_digits r else ([], r1)
      | [] => ([], r1)
      end in
    if is_nil ip && is_nil fp then None
    else
      let m := digits_value (ip ++ fp) in
      let e := - Z.of_nat (length fp) in
      match r2 with
      | [] => Some (nearest_decimal neg m e)
      | c :: r3 =>
          if bool_decide (lower c = "e"%char) then
            let '(eneg, r4) := split_sign r3 in
            let '(ed, r5) := span_digits r4 in
            if is_nil ed || negb (is_nil r5) then None
            else
              let x := digits_value ed in
              Some (nearest_decimal neg m (e + (if eneg then - x else x)))
          else None
      end.

Definition py_float (s : string) : option float :=
  cs ← drop_underscores false (strip (chars s));
  let '(neg, body) := split_sign cs in
  SF2Prim <$> float_literal neg body.

(** [str(x)] for a float: the shortest decimal that reads back as [x]. *)
Definition sf_eqb (x y : spec_float) : bool :=
  match x, y with
  | S754_finite s1 m1 e1, S754_finite s2 m2 e2 =>
      bool_decide (s1 = s2) && (Z.pos m1 =? Z.pos m2) && (e1 =? e2)
  | _, _ => false
  end.

(** [m * 2 ^ e] scaled by [10 ^ (- k)], as a fraction. *)
Definition scaled (m e k : Z) : Z * Z :=
  ((m * (if 0 <=? e then 2 ^ e else 1) * (if 0 <=? k then 1 else 10 ^ (- k))),
   ((if 0 <=? e then 1 else 2 ^ (- e)) * (if 0 <=? k then 10 ^ k else 1))).

(** The [t] with [10 ^ t <= m * 2 ^ e < 10 ^ (t + 1)]. *)
Definition decimal_exponent (m e : Z) : Z :=
  let t := ((Z.log2 m + e) * 30103) / 100000 in
  let '(n0, d0) := scaled m e t in
  if n0 <? d0 then t - 1
  else let '(n1, d1) := scaled m e (t + 1) in
       if d1 <=? n1 then t + 1 else t.

(** The digits of the closest decimal with [p] significant digits that
    reads back as the float, if there is one. *)
Definition candidate (x : spec_float) (m e t : Z) (p : Z) : option (Z * Z) :=
  let k := t - p + 1 in
  let '(n, d) := scaled m e k in
  let lo := n / d in
  let hi := lo + 1 in
  let ok c := sf_eqb (nearest_decimal false c k) x in
  let lo_closer := 2 * (n mod d) <=? d in
  match ok lo, ok hi with
  | true, true => Some (if lo_closer then lo else hi, k)
  | true, false => Some (lo, k)
  | false, true => Some (hi, k)
  | false, false => None
  end.

Fixpoint shortest (x : spec_float) (m e t : Z) (p : Z) (fuel : nat) : Z * Z :=
  match fuel with
  | O => (Z.pos 1, 0)
  | S fuel' =>
      match candidate x m e t p with
      | Some r => r
      | None => shortest x m e t (p + 1) fuel'
      end
  end.

Fixpoint strip_zeros (fuel : nat) (c k : Z) : Z * Z :=
  match fuel with
  | O => (c, k)
  | S fuel' => if c mod 10 =? 0 then strip_zeros fuel' (c / 10) (k + 1) else (c, k)
  end.

Definition zeros (n : Z) : list ascii := repeat "0"%char (Z.to_nat n).

Definition two_digits (n : Z) : list ascii :=
  if n <? 10 then "0"%char :: nat_digits n else nat_digits n.

Definition format_repr (ds : list ascii) (decpt : Z) : list ascii :=
  let n := Z.of_nat (length ds) in
  if (decpt <=? -4) || (16 <? decpt) then
    let ex := decpt - 1 in
    let mant :=
      match ds with
      | [d] => [d]
      | d :: rest => d :: "."%char :: rest
      | [] => []
      end in
    mant ++ "e"%char :: (if ex <? 0 then "-"%char else "+"%char) :: two_digits (Z.abs ex)
  else if decpt <=? 0 then "0"%char :: "."%char :: zeros (- decpt) ++ ds
  else if n <=? decpt then ds ++ zeros (decpt - n) ++ [ "."%char; "0"%char ]
  else take (Z.to_nat decpt) ds ++ "."%char :: drop (Z.to_nat decpt) ds.

Definition float_str (x : float) : string :=
  match Prim2SF x with
  | S754_nan => "nan"
  | S754_infinity neg => if neg then "-inf" else "inf"
  | S754_zero neg => if neg then "-0.0" else "0.0"
  | S754_finite neg m e =>
      let t := decimal_exponent (Z.pos m) e in
      let '(c0, k0) := shortest (S754_finite false m e) (Z.pos m) e t 1 17 in
      let '(c, k) := strip_zeros 17 c0 k0 in
      let ds := nat_digits c in
      let body := format_repr ds (Z.of_nat (length ds) + k) in
      text (if neg then "-"%char :: body else body)
  end.

(** ** Values, schema entries and line records *)

(** A value after type coercion: an [int], a [float] or the [str] itself. *)
Inductive pyval : Type :=
| VInt (n : Z)
| VFloat (x : float)
| VStr (s : string).

Definition is_number (v : pyval) : bool :=
  match v with VInt _ | VFloat _ => true | VStr _ => false end.

(** One entry of a schema table; only ["type"] and ["allowed"] are read by
    the validator's own code, the rest is passed to the cerberus validator. *)
Record schema_entry : Type := SchemaEntry {
  se_type : option string;
  se_allowed : option (list string);
  se_min : option Z;
  se_max : option Z
}.

Definition empty_entry : schema_entry := SchemaEntry None None None None.

(** The ["requirement_level"] of a record: a [str], or the one-element tuple
    that the trailing comma of the valid-line annotation builds. *)
Inductive level_value : Type :=
| LevelStr (s : string)
| LevelTuple (s : string).

(** A line record: a dict with ["compound_id"] and some of the other keys. *)
Record line : Type := Line {
  compound_id : string;
  raw_value : option pyval;
  interpreted_value : option string;
  requirement_level : option level_value;
  reason : option string;
  error_notes : option string;
  warning_notes : option string
}.

Definition level_reason_line (cid level why : string) : line :=
  Line cid None None (Some (LevelStr level)) (Some why) None None.

Definition error_line (cid raw notes : string) (level : option string) : line :=
  Line cid (Some (VStr raw)) None (LevelStr <$> level) None (Some notes) None.

Definition valid_line (cid : string) (typed : pyval) (interpreted : string)
    (level : option string) : line :=
  Line cid (Some typed) (Some interpreted) (LevelStr <$> level) None None None.

Definition warning_line (cid raw notes : string) : line :=
  Line cid (Some (VStr raw)) None None None None (Some notes).

Definition unknown_line (cid raw : string) : line :=
  Line cid (Some (VStr raw)) None None None (Some "Unknown compound ID") None.

(** The local bucket lists of a [validate_metrics_by_*] call. *)
Record buckets : Type := Buckets {
  valid_lines : list line;
  error_lines : list line;
  unknown_lines : list line;
  blank_lines : list line;
  recommended_but_missing_lines : list line;
  missing_metrics : list line;
  warning_lines : list line
}.

Definition no_lines : buckets := Buckets [] [] [] [] [] [] [].

Definition set_valid (f : list line -> list line) (b : buckets) : buckets :=
  Buckets (f (valid_lines b)) (error_lines b) (unknown_lines b) (blank_lines b)
    (recommended_but_missing_lines b) (missing_metrics b) (warning_lines b).
Definition set_error (f : list line -> list line) (b : buckets) : buckets :=
  Buckets (valid_lines b) (f (error_lines b)) (unknown_lines b) (blank_lines b)
    (recommended_but_missing_lines b) (missing_metrics b) (warning_lines b).
Definition set_unknown (f : list line -> list line) (b : buckets) : buckets :=
  Buckets (valid_lines b) (error_lines b) (f (unknown_lines b)) (blank_lines b)
    (recommended_but_missing_lines b) (missing_metrics b) (warning_lines b).
Definition set_blank (f : list line -> list line) (b : buckets) : buckets :=
  Buckets (valid_lines b) (error_lines b) (unknown_lines b) (f (blank_lines b))
    (recommended_but_missing_lines b) (missing_metrics b) (warning_lines b).
Definition set_recommended (f : list line -> list line) (b : buckets) : buckets :=
  Buckets (valid_lines b) (error_lines b) (unknown_lines b) (blank_lines b)
    (f (recommended_but_missing_lines b)) (missing_metrics b) (warning_lines b).
Definition set_missing (f : list line -> list line) (b : buckets) : buckets :=
  Buckets (valid_lines b) (error_lines b) (unknown_lines b) (blank_lines b)
    (recommended_but_missing_lines b) (f (missing_metrics b)) (warning_lines b).
Definition set_warning (f : list line -> list line) (b : buckets) : buckets :=
  Buckets (valid_lines b) (error_lines b) (unknown_lines b) (blank_lines b)
    (recommended_but_missing_lines b) (missing_metrics b) (f (warning_lines b)).

(** [xs.append(x)] *)
Definition append (x : line) (xs : list line) : list line := (xs ++ [x])%list.

(** [[line for line in xs if line["compound_id"] != cid]] *)
Definition without (cid : string) (xs : list line) : list line :=
  filter (fun l => compound_id l ≠ cid) xs.

(** The ids of the records of a bucket. *)
Definition ids (xs : list line) : list string := map compound_id xs.

(** A status that declares an exemption. *)
Definition exempt (status : string) : bool :=
  in_list status ["not_applicable"; "not_available"].

(** Truth value of [d.get(k)] for a dict of strings. *)
Definition has_value (d : gmap string string) (k : string) : bool :=
  match d !! k with
  | Some v => negb (str_eqb v "")
  | None => false
  end.

(** [d.get(k) == v] *)
Definition get_is (d : gmap string string) (k v : string) : bool :=
  bool_decide (d !! k = Some v).

(** [d[k]] *)
Definition item (d : gmap string string) (k : string) : result string :=
  match d !! k with
  | Some v => Ok v
  | None => Raise (KeyError k)
  end.

(** ** Type coercion *)

(** [is_float]: [float(value)] does not raise [ValueError]. *)
Definition is_float (value : string) : bool :=
  match py_float value with Some _ => true | None => false end.

Definition declared_type (schema : gmap string schema_entry) (compound_id : string)
  : option string :=
  schema !! compound_id ≫= se_type.

Definition get_typed_value (schema : gmap string schema_entry) (value compound_id : string)
  : result pyval :=
  if bool_decide (declared_type schema compound_id = Some "integer") && isnumeric value
  then n ← py_int value; Ok (VInt n)
  else if bool_decide (declared_type schema compound_id = Some "float") && is_float value
  then
    match py_float value with
    | Some x => Ok (VFloat x)
    | None => Raise ValueError
    end
  else Ok (VStr value).

(** ** Arithmetic on coerced values *)

(** [v >= k] for an int [k]. *)
Definition value_ge (v : pyval) (k : Z) : result bool :=
  match v with
  | VInt n => Ok (k <=? n)
  | VFloat x =>
      Ok (match int_float_compare k x with
          | Some Lt | Some Eq => true
          | _ => false
          end)
  | VStr _ => Raise TypeError
  end.

(** [v == 0] *)
Definition value_is_zero (v : pyval) : bool :=
  match v with
  | VInt n => n =? 0
  | VFloat x => PrimFloat.eqb x zero
  | VStr s => false
  end.

Definition as_float (v : pyval) : result float :=
  match v with
  | VInt n => float_of_int n
  | VFloat x => Ok x
  | VStr _ => Raise TypeError
  end.

(** [a + b] and [a - b] for two numbers. *)
Definition value_add (a b : pyval) : result pyval :=
  match a, b with
  | VInt m, VInt n => Ok (VInt (m + n))
  | _, _ => x ← as_float a; y ← as_float b; Ok (VFloat (PrimFloat.add x y))
  end.

Definition value_sub (a b : pyval) : result pyval :=
  match a, b with
  | VInt m, VInt n => Ok (VInt (m - n))
  | _, _ => x ← as_float a; y ← as_float b; Ok (VFloat (PrimFloat.sub x y))
  end.

(** [abs(v)] *)
Definition value_abs (v : pyval) : pyval :=
  match v with
  | VInt n => VInt (Z.abs n)
  | VFloat x => VFloat (PrimFloat.abs x)
  | VStr s => VStr s
  end.

(** [v > x] for a float [x]. *)
Definition value_gt_float (v : pyval) (x : float) : result bool :=
  match v with
  | VInt n => Ok (match int_float_compare n x with Some Gt => true | _ => false end)
  | VFloat y => Ok (PrimFloat.ltb x y)
  | VStr _ => Raise TypeError
  end.

(** [f"{v}"] *)
Definition value_str (v : pyval) : string :=
  match v with
  | VInt n => str_of_int n
  | VFloat x => float_str x
  | VStr s => s
  end.

(** ** Relation rules

    The rule dicts of [special_relations], told apart in the source by the
    key they carry, tested in this order: ["condition_ids"],
    ["conflict_trigger"], ["sum_check"], and otherwise a conditional
    requirement. *)
Inductive relation : Type :=
| SubsetTotal (condition_ids : list string) (total_field : string)
| Conflict (conflict_trigger conflict_trigger_value : string)
    (conflicting_fields : list string)
| SumCheck (total_field : string) (component_fields : list string)
    (tolerance_percent : Z)
| Conditional (condition_id condition_value : string) (dependent_ids : list string).

Definition because_condition (condition_id condition_value : string) : string :=
  "Strongly recommended because '" +:+ condition_id +:+ "' is '" +:+ condition_value +:+ "'".

Definition because_subset (condition_ids : list string) : string :=
  "Strongly recommended because at least one value is provided for "
    +:+ join ", " condition_ids.

(** ** Value interpretation *)

Section Interpretation.
(** The schema, the label dictionaries and the unit table of one report type. *)
Variable SCHEMA : gmap string schema_entry.
Variable OPTIONS : list (string * gmap string string).
Variable UNITS : gmap string string.

Definition issubset (xs : list string) (d : gmap string string) : bool :=
  forallb (fun x => bool_decide (is_Some (d !! x))) xs.

Fixpoint first_label (allowed : list string) (value : string)
    (options : list (string * gmap string string)) : option string :=
  match options with
  | [] => None
  | (_, options_dict) :: rest =>
      if issubset allowed options_dict then
        match options_dict !! value with
        | Some interpreted_value =>
            if negb (str_eqb interpreted_value "") then Some interpreted_value
            else first_label allowed value rest
        | None => first_label allowed value rest
        end
      else first_label allowed value rest
  end.

Definition get_interpreted_value (value compound_id : string) : string :=
  match SCHEMA !! compound_id with
  | Some schema_entry =>
      match se_allowed schema_entry with
      | Some (a :: allowed) => default value (first_label (a :: allowed) value OPTIONS)
      | _ => value
      end
  | None => value
  end.

(** The company variant replaces the unit ["currency"] by the reported
    currency; the fund and GP variants have no such case. *)
Definition get_interpreted_value_with_units (value compound_id : string)
    (currency_unit : option string) : string :=
  let interpreted_value := get_interpreted_value value compound_id in
  match UNITS !! compound_id with
  | Some unit =>
      match currency_unit with
      | Some cu =>
          if str_eqb unit "currency" then interpreted_value +:+ " " +:+ cu
          else interpreted_value +:+ " " +:+ unit
      | None => interpreted_value +:+ " " +:+ unit
      end
  | None => interpreted_value
  end.
End Interpretation.

(** ** Portfolio companies *)

(** The tables that the company function imports from
    [validation_mappings.minimum_intermediate], [validation_mappings.schema]
    and [validation_mappings.options]. *)
Record portco_tables : Type := PortcoTables {
  MINIMUM_METRICS : list string;
  INTERMEDIATE_METRICS : list string;
  FULL_METRICS : list string;
  OPTIONAL_METRICS : list string;
  ALL_METRICS : list string;
  SCHEMA_PORTCO : gmap string schema_entry;
  COMPOUND_ID_UNITS : gmap string string;
  OPTIONS : list (string * gmap string string)
}.

(** [company_data]: the ["metrics"] and ["status"] dicts. *)
Record dataset : Type := Dataset {
  metrics : gmap string string;
  status : gmap string string
}.

Module Summary.
(** The dict returned by [validate_metrics_by_company]. *)
Record t : Type := Make {
  company_name : string;
  valid_lines : nat;
  invalid_lines : nat;
  percent_min : pyval;
  percent_rec : pyval;
  percent_full : pyval;
  missing_minimum : nat;
  missing_intermediate : nat;
  missing_full : nat;
  correct_lines : list line;
  error_lines : list line;
  unknown_lines : list line;
  missing_metrics : list line;
  blank_lines : list line;
  recommended_but_missing_lines : list line;
  warning_lines : list line
}.
End Summary.

(** [round((met / total) * 100, 2)] *)
Definition percentage (met total : nat) : result float :=
  q ← int_truediv (Z.of_nat met) (Z.of_nat total);
  Ok (py_round2 (PrimFloat.mul q 100%float)).

(** [m["requirement_level"] in names] for a record of [missing_metrics]. *)
Definition level_in (names : list string) (m : line) : result bool :=
  match requirement_level m with
  | Some (LevelStr s) => Ok (in_list s names)
  | Some (LevelTuple _) => Ok false
  | None => Raise (KeyError "requirement_level")
  end.

(** [sum(1 for x in xs if test x)] *)
Fixpoint count_if (test : line -> result bool) (xs : list line) : result nat :=
  match xs with
  | [] => Ok O
  | x :: xs' =>
      b ← test x;
      n ← count_if test xs';
      Ok (if b : bool then S n else n)
  end.

Definition FTE : string := "total_ftes_end_of_report_year".

Section Company.
(** [Validator({compound_id: entry}).validate({compound_id: value})] of the
    cerberus library: [None] when it accepts the value, and otherwise
    [str(validator.errors)]. *)
Variable validator : string -> schema_entry -> pyval -> option string.
Variable T : portco_tables.
(** The arguments of [validate_metrics_by_company]. *)
Variable company_data : dataset.
Variable schema : gmap string schema_entry.

Let company_metrics := metrics company_data.
Let company_statuses := status company_data.

(** The conditional expression that names the tier of a metric. *)
Definition tier_level (compound_id otherwise : string) : string :=
  if in_list compound_id (MINIMUM_METRICS T) then "Minimum"
  else if in_list compound_id (INTERMEDIATE_METRICS T) then "Intermediate"
  else if in_list compound_id (FULL_METRICS T) then "Full"
  else otherwise.

(** The state of the first loop: the buckets and the local [level], which
    keeps its value from one iteration to the next and is unbound until
    its first assignment. *)
Record classify_state : Type := ClassifyState {
  cs_buckets : buckets;
  cs_level : option string
}.

Definition not_mandatory_reason (status : string) : string :=
  if str_eqb status "not_applicable" then "Marked as not applicable in import file"
  else "Marked as not available in import file".

(** The branch for a metric marked not_applicable or not_available. *)
Definition classify_exempt (b : buckets) (compound_id status : string) : result buckets :=
  let reason := not_mandatory_reason status in
  let level := tier_level compound_id "Value not required" in
  raw_fte_value ← item company_metrics FTE;
  if negb (str_eqb raw_fte_value "") then
    total_fte_number ← get_typed_value (SCHEMA_PORTCO T) raw_fte_value FTE;
    if str_eqb level "Minimum" then
      Ok (set_recommended (append (level_reason_line compound_id level
        "Status is 'not_applicable' or 'not_available', but this is a 'minimum' metric.")) b)
    else if str_eqb level "Intermediate" then
      above ← value_ge total_fte_number 15;
      if above : bool then
        Ok (set_recommended (append (level_reason_line compound_id level
          "Status is 'not_applicable' or 'not_available', but this is an 'intermediate' metric for companies with FTE higher than 15.")) b)
      else Ok (set_blank (append (level_reason_line compound_id level reason)) b)
    else if str_eqb level "Full" then
      above ← value_ge total_fte_number 250;
      if above : bool then
        Ok (set_recommended (append (level_reason_line compound_id level
          "Status is 'not_applicable' or 'not_available', but all metrics are strongly recommended for companies with FTE higher than 250.")) b)
      else Ok (set_blank (append (level_reason_line compound_id level reason)) b)
    else Ok b
  else
    if str_eqb level "Minimum" then
      Ok (set_recommended (append (level_reason_line compound_id level
        "Status is 'not_applicable' or 'not_available', but this is a 'minimum' metric.")) b)
    else
      Ok (set_recommended (append (level_reason_line compound_id level
        "Status is 'not_applicable' or 'not_available'. Unknown level of requirement for this company since total_ftes_end_of_report_year is not provided.")) b).

(** One iteration of [for compound_id in ALL_METRICS]. *)
Definition classify (st : classify_state) (compound_id : string) : result classify_state :=
  let b := cs_buckets st in
  match company_metrics !! compound_id with
  | None =>
      let level := tier_level compound_id "Value not required (optional)" in
      Ok (ClassifyState
            (set_missing (append (level_reason_line compound_id level
               "Not in import file at all")) b)
            (Some level))
  | Some raw_value =>
      let status := default "" (company_statuses !! compound_id) in
      if exempt status then
        b' ← classify_exempt b compound_id status;
        Ok (ClassifyState b' (Some (tier_level compound_id "Value not required")))
      else if str_eqb raw_value "" && str_eqb status "provided" then
        Ok (ClassifyState
              (set_error (append (error_line compound_id raw_value
                 "Value is blank but marked as 'provided'." None)) b)
              (cs_level st))
      else if str_eqb status "provided" then
        typed_value ← get_typed_value (SCHEMA_PORTCO T) raw_value compound_id;
        currency ← item company_metrics "currency";
        let interpreted_value :=
          get_interpreted_value_with_units (SCHEMA_PORTCO T) (OPTIONS T)
            (COMPOUND_ID_UNITS T) raw_value compound_id (Some currency) in
        let level := tier_level compound_id "Value not required" in
        match validator compound_id (default empty_entry (schema !! compound_id)) typed_value with
        | None =>
            Ok (ClassifyState
                  (set_valid (append (valid_line compound_id typed_value
                     interpreted_value (Some level))) b)
                  (Some level))
        | Some errors =>
            Ok (ClassifyState
                  (set_error (append (error_line compound_id raw_value errors
                     (Some level))) b)
                  (Some level))
        end
      else
        match cs_level st with
        | None => Raise (UnboundLocalError "level")
        | Some level =>
            Ok (ClassifyState
                  (set_error (append (error_line compound_id raw_value
                     ("Unknown value in 'STATUS' column: " +:+ status +:+ ".")
                     (Some level))) b)
                  (Some level))
        end
  end.

(** The first loop of the function. *)
Definition classify_all : result classify_state :=
  for_each classify (ALL_METRICS T) (ClassifyState no_lines None).

(** *** Relations *)

(** The state of the second loop: the buckets and the working copies
    [minimum], [intermediate] and [full] of the tier lists. *)
Record relation_state : Type := RelationState {
  rs_buckets : buckets;
  minimum : list string;
  intermediate : list string;
  full : list string
}.

Definition on_buckets (f : buckets -> buckets) (st : relation_state) : relation_state :=
  RelationState (f (rs_buckets st)) (minimum st) (intermediate st) (full st).

(** The three replacements shared by the subset-total and the conditional
    rules. *)
Definition replace_missing (field level why : string) (b : buckets) : buckets :=
  set_missing (fun xs => append (level_reason_line field level why) (without field xs)) b.

Definition replace_recommended (field level why : string) (b : buckets) : buckets :=
  set_recommended (fun xs => append (level_reason_line field level why) (without field xs)) b.

Definition require_field (field level : string) (b : buckets) : option buckets :=
  match company_metrics !! field with
  | None =>
      Some (set_blank (without field)
              (replace_missing field level "Not in import file at all" b))
  | Some v =>
      let field_status := default "" (company_statuses !! field) in
      if str_eqb v "" && negb (exempt field_status) then
        Some (set_blank (without field) (set_valid (without field)
                (replace_missing field level "Value is blank" b)))
      else if exempt field_status then
        Some (set_blank (without field)
                (replace_recommended field level
                   "Marked as not_applicable or not_available" b))
      else None
  end.

(** ["condition_ids" in relation] *)
Definition subset_total (condition_ids : list string) (total_field : string)
    (b : buckets) : buckets :=
  if existsb (has_value company_metrics) condition_ids then
    default b (require_field total_field (because_subset condition_ids) b)
  else b.

(** ["conflict_trigger" in relation] *)
Definition conflict_note (conflicting_field trigger_field trigger_value : string) : string :=
  "Conflict: '" +:+ conflicting_field +:+ "' is 'yes' but '" +:+ trigger_field
    +:+ "' is also '" +:+ trigger_value +:+ "'. If '" +:+ trigger_field +:+ "' is '"
    +:+ trigger_value +:+ "', then '" +:+ conflicting_field +:+ "' should be 'no'.".

Definition conflict_line (conflicting_field trigger_field trigger_value : string) : line :=
  error_line conflicting_field "yes"
    (conflict_note conflicting_field trigger_field trigger_value) None.

Definition conflict_field (trigger_field trigger_value : string) (b : buckets)
    (conflicting_field : string) : buckets :=
  if get_is company_metrics conflicting_field "yes" then
    set_error (append (conflict_line conflicting_field trigger_field trigger_value))
      (set_blank (without conflicting_field)
         (set_valid (without conflicting_field) b))
  else b.

Definition conflict (trigger_field trigger_value : string)
    (conflicting_fields : list string) (b : buckets) : buckets :=
  if get_is company_metrics trigger_field trigger_value then
    fold_left (conflict_field trigger_field trigger_value) conflicting_fields b
  else b.

(** ["sum_check" in relation] *)

(** The loop over [component_fields]: the running [component_sum] and the
    list [components_found]. *)
Definition add_component (acc : pyval * list string) (comp_field : string)
  : result (pyval * list string) :=
  let '(component_sum, components_found) := acc in
  let comp_raw := default "" (company_metrics !! comp_field) in
  if negb (str_eqb comp_raw "") then
    comp_value ← get_typed_value schema comp_raw comp_field;
    if is_number comp_value then
      total ← value_add component_sum comp_value;
      Ok (total, (components_found ++ [comp_field])%list)
    else Ok acc
  else Ok acc.

Definition sum_components (component_fields : list string)
  : result (pyval * list string) :=
  for_each add_component component_fields (VInt 0, []).

(** [is_mismatch] *)
Definition sum_mismatch (total_value component_sum : pyval) (tolerance_percent : Z)
  : result bool :=
  if value_is_zero total_value then Ok (negb (value_is_zero component_sum))
  else
    percent ← int_truediv tolerance_percent 100;
    magnitude ← as_float (value_abs total_value);
    let tolerance := PrimFloat.mul magnitude percent in
    difference ← value_sub total_value component_sum;
    value_gt_float (value_abs difference) tolerance.

Definition mismatch_note (total_field : string) (total_value : pyval)
    (components_found : list string) (component_sum : pyval) (tolerance_percent : Z)
  : string :=
  "Sum mismatch: '" +:+ total_field +:+ "' is " +:+ value_str total_value
    +:+ ", but sum of [" +:+ join ", " components_found +:+ "] is "
    +:+ value_str component_sum +:+ ". Difference exceeds "
    +:+ str_of_int tolerance_percent +:+ "% tolerance.".

Definition sum_check (total_field : string) (component_fields : list string)
    (tolerance_percent : Z) (b : buckets) : result buckets :=
  let total_raw := default "" (company_metrics !! total_field) in
  if negb (str_eqb total_raw "") then
    total_value ← get_typed_value schema total_raw total_field;
    if is_number total_value then
      '(component_sum, components_found) ← sum_components component_fields;
      if negb (is_nil components_found) then
        is_mismatch ← sum_mismatch total_value component_sum tolerance_percent;
        if is_mismatch : bool then
          Ok (set_warning (append (warning_line total_field total_raw
                (mismatch_note total_field total_value components_found
                   component_sum tolerance_percent))) b)
        else Ok b
      else Ok b
    else Ok b
  else Ok b.

(** The conditional requirement, the [else] branch of the dispatch. *)
Fixpoint annotate_first (dependent_id : string) (level : level_value)
    (xs : list line) : list line :=
  match xs with
  | [] => []
  | x :: xs' =>
      if str_eqb (compound_id x) dependent_id then
        Line (compound_id x) (raw_value x) (interpreted_value x) (Some level)
          (reason x) (error_notes x) (warning_notes x) :: xs'
      else x :: annotate_first dependent_id level xs'
  end.

Definition extend_if (condition_id dependent_id : string) (tier : list string)
  : list string :=
  if in_list condition_id tier then (tier ++ [dependent_id])%list else tier.

Definition conditional_dependent (condition_id condition_value : string)
    (st : relation_state) (dependent_id : string) : relation_state :=
  let level := because_condition condition_id condition_value in
  let b := rs_buckets st in
  let b' :=
    match require_field dependent_id level b with
    | Some b' => b'
    | None => set_valid (annotate_first dependent_id (LevelTuple level)) b
    end in
  RelationState b'
    (extend_if condition_id dependent_id (minimum st))
    (extend_if condition_id dependent_id (intermediate st))
    (extend_if condition_id dependent_id (full st)).

Definition conditional (condition_id condition_value : string)
    (dependent_ids : list string) (st : relation_state) : relation_state :=
  if get_is company_metrics condition_id condition_value then
    fold_left (conditional_dependent condition_id condition_value) dependent_ids st
  else st.

(** One iteration of [for relation in special_relations]. *)
Definition apply_relation (st : relation_state) (r : relation) : result relation_state :=
  match r with
  | SubsetTotal condition_ids total_field =>
      Ok (on_buckets (subset_total condition_ids total_field) st)
  | Conflict trigger_field trigger_value conflicting_fields =>
      Ok (on_buckets (conflict trigger_field trigger_value conflicting_fields) st)
  | SumCheck total_field component_fields tolerance_percent =>
      b ← sum_check total_field component_fields tolerance_percent (rs_buckets st);
      Ok (RelationState b (minimum st) (intermediate st) (full st))
  | Conditional condition_id condition_value dependent_ids =>
      Ok (conditional condition_id condition_value dependent_ids st)
  end.

(** The rule list of the function, in declaration order. *)
Definition special_relations : list relation := [
  Conditional "violating_ungp_oecd" "yes" ["type_of_violations_ungc_oecd_guidelines"];
  Conditional "cyber_other" "yes" ["cyber_other_specify"];
  Conditional "number_of_data_breaches" "yes" ["data_breaches_qualitative"];
  Conditional "number_of_esg_incidents" "yes" ["qualitative_info_esg_incidents"];
  Conditional "number_of_workrelated_injuries" "yes" ["workrelated_injuries_qualitative"];
  Conditional "eu_taxonomy_assessment" "yes"
    ["percentage_turnover_eu_taxonomy"; "percentage_capex_eu_taxonomy";
     "percentage_opex_eu_taxonomy"];
  Conditional "tobacco_activities" "yes" ["percentage_turnover_tobacco_activities"];
  Conditional "hard_coal_and_lignite_activities" "yes"
    ["percentage_turnover_hard_coal_and_lignite_activities"];
  Conditional "oil_fuels_activities" "yes" ["percentage_turnover_oil_fuels_activities"];
  Conditional "gaseous_fuels_activities" "yes"
    ["percentage_turnover_gaseous_fuels_activities"];
  Conditional "high_ghg_intensity_electricity_generation" "yes"
    ["percentage_turnover_high_ghg_intensity_electricity_generation"];
  Conditional "listed" "yes" ["listed_ticker"];
  SubsetTotal
    ["number_of_ftes_end_of_report_year_female";
     "number_of_ftes_end_of_report_year_non_binary";
     "number_of_ftes_end_of_report_year_non_disclosed";
     "number_of_ftes_end_of_report_year_male"]
    "total_ftes_end_of_report_year";
  SubsetTotal
    ["number_of_csuite_female"; "number_of_csuite_non_binary";
     "number_of_csuite_non_disclosed"; "number_of_csuite_male"]
    "total_csuite_employees";
  SubsetTotal
    ["number_of_founders_still_employed_female";
     "number_of_founders_still_employed_non_binary";
     "number_of_founders_still_employed_non_disclosed";
     "number_of_founders_still_employed_male"]
    "total_founders_still_employed";
  SubsetTotal
    ["number_of_board_members_female"; "number_of_board_members_non_binary";
     "number_of_board_members_non_disclosed"; "number_of_board_members_male";
     "number_of_board_members_underrepresented_groups";
     "number_of_independent_board_members"]
    "total_number_of_board_members";
  SubsetTotal ["energy_consumption_renewable"] "total_energy_consumption";
  Conflict "sustainability_responsibility_none" "yes"
    ["sustainability_responsibility_officer"; "sustainability_responsibility_team";
     "sustainability_responsibility_referent"; "sustainability_responsibility_cfo";
     "sustainability_responsibility_ceo"; "sustainability_responsibility_cso";
     "sustainability_responsibility_management"];
  Conflict "cyber_no_programme" "yes"
    ["cyber_scheduled_scans"; "cyber_penetration_testing";
     "cyber_lifecycle_security_testing"; "cyber_other"];
  SumCheck "gross_revenue" ["gross_revenue_inside_eu"; "gross_revenue_outside_eu"] 1;
  SumCheck "turnover" ["turnover_inside_eu"; "turnover_outside_eu"] 1;
  SumCheck "total_ghg_emissions"
    ["total_scope_1_emissions"; "total_scope_2_emissions"; "total_scope_3_emissions"] 5;
  SumCheck "total_energy_consumption"
    ["energy_consumption_renewable"; "non_renewable_energy_consumption"] 5;
  SumCheck "total_ftes_end_of_report_year"
    ["number_of_ftes_end_of_report_year_female";
     "number_of_ftes_end_of_report_year_male";
     "number_of_ftes_end_of_report_year_non_binary";
     "number_of_ftes_end_of_report_year_non_disclosed"] 5;
  SumCheck "total_csuite_employees"
    ["number_of_csuite_female"; "number_of_csuite_male";
     "number_of_csuite_non_binary"; "number_of_csuite_non_disclosed"] 5;
  SumCheck "total_founders_still_employed"
    ["number_of_founders_still_employed_female";
     "number_of_founders_still_employed_male";
     "number_of_founders_still_employed_non_binary";
     "number_of_founders_still_employed_non_disclosed"] 5;
  SumCheck "total_number_of_board_members"
    ["number_of_board_members_female"; "number_of_board_members_male";
     "number_of_board_members_non_binary";
     "number_of_board_members_non_disclosed"] 5
].

(** The second loop, over a rule list. *)
Definition apply_relations (rules : list relation) (b : buckets) : result relation_state :=
  for_each apply_relation rules
    (RelationState b (MINIMUM_METRICS T) (INTERMEDIATE_METRICS T) (FULL_METRICS T)).

(** [for compound_id in company_metrics.keys()]; the keys come in the
    order of [map_to_list]. *)
Definition add_unknown (b : buckets) (entry : string * string) : buckets :=
  if bool_decide (is_Some (schema !! entry.1)) then b
  else set_unknown (append (unknown_line entry.1 entry.2)) b.

Definition collect_unknown (b : buckets) : buckets :=
  fold_left add_unknown (map_to_list company_metrics) b.

(** *** The summary *)

Definition all_missing_ids (b : buckets) : list string :=
  (ids (missing_metrics b) ++ ids (error_lines b))%list.

Definition met_required (b : buckets) (tier : list string) : nat :=
  length (filter (fun m => m ∉ all_missing_ids b) tier).

Definition tier_percentage (b : buckets) (tier : list string) : result pyval :=
  if bool_decide (0 < length tier)%nat
  then VFloat <$> percentage (met_required b tier) (length tier)
  else Ok (VInt 0).

Definition error_in (tier : list string) (e : line) : result bool :=
  Ok (in_list (compound_id e) tier).

Definition missing_count (b : buckets) (levels tier : list string) : result nat :=
  m ← count_if (level_in levels) (missing_metrics b);
  e ← count_if (error_in tier) (error_lines b);
  Ok (m + e)%nat.

Definition summarize (st : relation_state) : result Summary.t :=
  let b := rs_buckets st in
  percent_min ← tier_percentage b (MINIMUM_METRICS T);
  percent_rec ← tier_percentage b (INTERMEDIATE_METRICS T);
  percent_full ← tier_percentage b (FULL_METRICS T);
  _ ← tier_percentage b (OPTIONAL_METRICS T);
  missing_minimum ← missing_count b ["minimum"] (minimum st);
  missing_intermediate ← missing_count b ["minimum"; "intermediate"] (intermediate st);
  missing_full ← missing_count b ["minimum"; "intermediate"; "full"] (full st);
  Ok (Summary.Make
        (default "Unknown Company" (company_metrics !! "company_name"))
        (length (valid_lines b))
        (length (error_lines b) + length (missing_metrics b))
        percent_min percent_rec percent_full
        missing_minimum missing_intermediate missing_full
        (valid_lines b) (error_lines b) (unknown_lines b) (missing_metrics b)
        (blank_lines b) (recommended_but_missing_lines b) (warning_lines b)).

(** The function over an arbitrary rule list, and the function itself. *)
Definition validate_with (rules : list relation) : result Summary.t :=
  st ← classify_all;
  rs ← apply_relations rules (cs_buckets st);
  summarize (on_buckets collect_unknown rs).

Definition validate_metrics_by_company : result Summary.t :=
  validate_with special_relations.
End Company.

(** ** Funds and GPs

    [validate_metrics_by_fund] and [validate_metrics_by_gp] are the same
    text over different tables, up to three places: the subset-total rule of
    the fund function tests a blank total without looking at its status, the
    key of the display name differs, and so does the count reported as
    ["invalid_lines"]. *)

Module EntitySummary.
(** The dict returned by [validate_metrics_by_fund] and [validate_metrics_by_gp]. *)
Record t : Type := Make {
  company_name : string;
  valid_lines : nat;
  invalid_lines : nat;
  percent_completion : float;
  correct_lines : list line;
  error_lines : list line;
  unknown_lines : list line;
  missing_metrics : list line;
  blank_lines : list line;
  recommended_but_missing_lines : list line
}.
End EntitySummary.

(** The tables of one of the two report types. *)
Record entity_tables : Type := EntityTables {
  ALL_ENTITY_METRICS : list string;
  REQUIRED_ENTITY_METRICS : list string;
  SCHEMA_ENTITY : gmap string schema_entry;
  ENTITY_COMPOUND_ID_UNITS : gmap string string;
  OPTIONS_ENTITY : list (string * gmap string string)
}.

Inductive entity_kind : Type := Fund | Gp.

Section Entity.
Variable validator : string -> schema_entry -> pyval -> option string.
Variable kind : entity_kind.
Variable T : entity_tables.
(** The arguments [fund_data] or [gp_data], and [schema]. *)
Variable entity_data : dataset.
Variable schema : gmap string schema_entry.

Let entity_metrics := metrics entity_data.
Let entity_statuses := status entity_data.

Definition required_level (compound_id : string) : string :=
  if in_list compound_id (REQUIRED_ENTITY_METRICS T) then "Strongly recommended"
  else "Value not required".

(** One iteration of [for compound_id in ALL_FUND_METRICS] (or [ALL_GP_METRICS]). *)
Definition classify_entity (b : buckets) (compound_id : string) : result buckets :=
  match entity_metrics !! compound_id with
  | None =>
      Ok (set_missing (append (level_reason_line compound_id
            (required_level compound_id) "Not in import file at all")) b)
  | Some raw_value =>
      let status := default "" (entity_statuses !! compound_id) in
      if exempt status then
        let reason := not_mandatory_reason status in
        let level := required_level compound_id in
        if str_eqb level "Strongly recommended" then
          Ok (set_recommended (append (level_reason_line compound_id level
            "Status is 'not_applicable' or 'not_available', but this is a strongly recommended metric.")) b)
        else Ok (set_blank (append (level_reason_line compound_id level reason)) b)
      else if str_eqb raw_value "" && str_eqb status "provided" then
        Ok (set_error (append (error_line compound_id raw_value
              "Value is blank but marked as 'provided'." None)) b)
      else if str_eqb status "provided" then
        typed_value ← get_typed_value (SCHEMA_ENTITY T) raw_value compound_id;
        let interpreted_value :=
          get_interpreted_value_with_units (SCHEMA_ENTITY T) (OPTIONS_ENTITY T)
            (ENTITY_COMPOUND_ID_UNITS T) raw_value compound_id None in
        match validator compound_id (default empty_entry (schema !! compound_id)) typed_value with
        | None =>
            Ok (set_valid (append (valid_line compound_id typed_value
                  interpreted_value None)) b)
        | Some errors =>
            Ok (set_error (append (error_line compound_id raw_value errors None)) b)
        end
      else
        Ok (set_error (append (error_line compound_id raw_value
              ("Unknown value in 'STATUS' column: " +:+ status +:+ ".") None)) b)
  end.

(** The state of the second loop: the buckets and the list [required]. *)
Record entity_state : Type := EntityState {
  es_buckets : buckets;
  required : list string
}.

(** The three replacements; [status_counts] is false only in the
    subset-total rule of the fund function, whose second test is
    [fund_metrics[total_field] == ""] alone. *)
Definition require_entity_field (status_counts : bool) (field level : string)
    (b : buckets) : option buckets :=
  match entity_metrics !! field with
  | None =>
      Some (set_blank (without field)
              (replace_missing field level "Not in import file at all" b))
  | Some v =>
      let field_status := default "" (entity_statuses !! field) in
      if str_eqb v "" && (negb status_counts || negb (exempt field_status)) then
        Some (set_blank (without field) (set_valid (without field)
                (replace_missing field level "Value is blank" b)))
      else if exempt field_status then
        Some (set_blank (without field)
                (replace_recommended field level
                   "Marked as not_applicable or not_available" b))
      else None
  end.

Definition entity_subset_total (condition_ids : list string) (total_field : string)
    (b : buckets) : buckets :=
  if existsb (has_value entity_metrics) condition_ids then
    default b (require_entity_field
                 (match kind with Fund => false | Gp => true end)
                 total_field (because_subset condition_ids) b)
  else b.

Definition entity_dependent (condition_id condition_value : string)
    (st : entity_state) (dependent_id : string) : entity_state :=
  let level := because_condition condition_id condition_value in
  EntityState
    (default (es_buckets st) (require_entity_field true dependent_id level (es_buckets st)))
    (required st ++ [dependent_id])%list.

Definition entity_conditional (condition_id condition_value : string)
    (dependent_ids : list string) (st : entity_state) : entity_state :=
  if get_is entity_metrics condition_id condition_value then
    fold_left (entity_dependent condition_id condition_value) dependent_ids st
  else st.

(** One iteration of [for relation in special_relations]: a rule without
    ["condition_ids"] is read as a conditional requirement. *)
Definition apply_entity_relation (st : entity_state) (r : relation) : result entity_state :=
  match r with
  | SubsetTotal condition_ids total_field =>
      Ok (EntityState (entity_subset_total condition_ids total_field (es_buckets st))
            (required st))
  | Conditional condition_id condition_value dependent_ids =>
      Ok (entity_conditional condition_id condition_value dependent_ids st)
  | Conflict _ _ _ | SumCheck _ _ _ => Raise (KeyError "condition_id")
  end.

Definition add_unknown_entity (b : buckets) (entry : string * string) : buckets :=
  if bool_decide (is_Some (schema !! entry.1)) then b
  else set_unknown (append (unknown_line entry.1 entry.2)) b.

(** [provided_required_lines] *)
Definition provided_required_lines (st : entity_state) : list line :=
  filter (fun l => compound_id l ∈ required st) (valid_lines (es_buckets st)).

Definition summarize_entity (st : entity_state) : result EntitySummary.t :=
  let b := es_buckets st in
  percentage_completion ←
    percentage (length (provided_required_lines st)) (length (required st));
  Ok (EntitySummary.Make
        (match kind with
         | Fund => default "Unknown Fund" (entity_metrics !! "fund_name")
         | Gp => default "Unknown GP" (entity_metrics !! "gp_name")
         end)
        (length (valid_lines b))
        (match kind with
         | Fund => length (error_lines b) + length (missing_metrics b)
         | Gp => length (error_lines b)
         end)
        percentage_completion
        (valid_lines b) (error_lines b) (unknown_lines b) (missing_metrics b)
        (blank_lines b) (recommended_but_missing_lines b)).

Definition validate_entity (rules : list relation) : result EntitySummary.t :=
  b ← for_each classify_entity (ALL_ENTITY_METRICS T) no_lines;
  st ← for_each apply_entity_relation rules (EntityState b (REQUIRED_ENTITY_METRICS T));
  summarize_entity
    (EntityState (fold_left add_unknown_entity (map_to_list entity_metrics) (es_buckets st))
       (required st)).
End Entity.

(** The rule list of [validate_metrics_by_fund]. *)
Definition special_relations_fund : list relation := [
    Conditional "adhere_to_ungc" "no" ["no_ungc_explanation"];
    Conditional "fund_marketing_under_sfdr" "article_8"
      ["article_8_sustainable_investment_commitment"; "article_8_eu_taxonomy_alignment";
      "article_8_non_eu_taxonomy_environmental_objective";
      "article_8_social_objective_investment";
      "article_8_considers_significant_negative_impacts";
      "article_8_ghg_reduction_target"; "article_8_uses_index_as_reference_benchmark"];
    Conditional "article_8_sustainable_investment_commitment" "yes"
      ["article_8_sustainable_investment_commitment_minimum_share_percentage"];
    Conditional "article_8_eu_taxonomy_alignment" "yes"
      ["article_8_eu_taxonomy_alignment_minimum_share_percentage"];
    Conditional "article_8_non_eu_taxonomy_environmental_objective" "yes"
      ["article_8_non_eu_taxonomy_environmental_objective_minimum_share_percentage"];
    Conditional "article_8_social_objective_investment" "yes"
      ["article_8_social_objective_investment_minimum_share_percentage"];
    Conditional "article_8_ghg_reduction_target" "yes"
      ["article_8_ghg_reduction_target_main_strategy";
      "article_8_ghg_reduction_target_ambition";
      "article_8_ghg_reduction_target_financed_emissions_baseline";
      "article_8_ghg_reduction_target_base_year";
      "article_8_ghg_reduction_target_target_year";
      "article_8_ghg_reduction_target_financed_emissions_reporting"];
    Conditional "fund_marketing_under_sfdr" "article_9"
      ["article_9_sustainable_investment_commitment"; "article_9_eu_taxonomy_alignment";
      "article_9_non_eu_taxonomy_environmental_objective";
      "article_9_social_objective_investment";
      "article_9_considers_significant_negative_impacts";
      "article_9_ghg_reduction_target"; "article_9_uses_index_as_reference_benchmark"];
    Conditional "article_9_sustainable_investment_commitment" "yes"
      ["article_9_sustainable_investment_commitment_minimum_share_percentage"];
    Conditional "article_9_eu_taxonomy_alignment" "yes"
      ["article_9_eu_taxonomy_alignment_minimum_share_percentage"];
    Conditional "article_9_non_eu_taxonomy_environmental_objective" "yes"
      ["article_9_non_eu_taxonomy_environmental_objective_minimum_share_percentage"];
    Conditional "article_9_social_objective_investment" "yes"
      ["article_9_social_objective_investment_minimum_share_percentage"];
    Conditional "article_9_ghg_reduction_target" "yes"
      ["article_9_ghg_reduction_target_main_strategy";
      "article_9_ghg_reduction_target_ambition";
      "article_9_ghg_reduction_target_financed_emissions_baseline";
      "article_9_ghg_reduction_target_base_year";
      "article_9_ghg_reduction_target_target_year";
      "article_9_ghg_reduction_target_financed_emissions_reporting";
      "article_9_ghg_reduction_target_1_5_c_aligned"];
    SubsetTotal ["number_of_partners_female"; "number_of_partners_non_binary";
      "number_of_partners_non_disclosed"; "number_of_partners_male"]
      "total_number_of_partners";
    Conditional "gender_diversity_pipeline_tracked" "yes"
      ["gender_diversity_pipeline_strategy_fit";
      "gender_diversity_pipeline_dd_undertaken";
      "gender_diversity_pipeline_term_sheet_issued"]
  ].

(** The rule list of [validate_metrics_by_gp]. *)
Definition special_relations_gp : list relation := [
    Conditional "use_of_international_disclosing_standard" "yes"
      ["use_of_international_disclosing_standard_tcfd";
      "use_of_international_disclosing_standard_gri";
      "use_of_international_disclosing_standard_sasb";
      "use_of_international_disclosing_standard_tnfd";
      "use_of_international_disclosing_standard_sbti";
      "use_of_international_disclosing_standard_cdp";
      "use_of_international_disclosing_standard_issb";
      "use_of_international_disclosing_standard_esrs";
      "use_of_international_disclosing_standard_other"];
    Conditional "participates_in_sustainability_climate_initiatives" "yes"
      ["participates_in_sustainability_climate_initiatives_pri";
      "participates_in_sustainability_climate_initiatives_nzami";
      "participates_in_sustainability_climate_initiatives_ici";
      "participates_in_sustainability_climate_initiatives_transition_pathway_initiative";
      "participates_in_sustainability_climate_initiatives_smi";
      "participates_in_sustainability_climate_initiatives_other"];
    Conditional "number_of_esg_incidents" "yes" ["qualitative_info_esg_incidents"];
    SubsetTotal ["number_of_ftes_end_of_report_year_female";
      "number_of_ftes_end_of_report_year_non_binary";
      "number_of_ftes_end_of_report_year_non_disclosed";
      "number_of_ftes_end_of_report_year_male"] "total_ftes_end_of_report_year";
    SubsetTotal ["number_of_partners_female"; "number_of_partners_non_binary";
      "number_of_partners_non_disclosed"; "number_of_partners_male"]
      "total_number_of_partners"
  ].

(** ** The GP tables of [validation_mappings/schema_gp.py] *)

(** [list(OPTIONS_GP[key].keys())] *)
Definition option_keys (options : list (string * gmap string string)) (key : string)
  : list string :=
  match filter (fun kv => kv.1 = key) options with
  | (_, d) :: _ => (map_to_list d).*1
  | [] => []
  end.

Definition SCHEMA_GP (OPTIONS_GP : list (string * gmap string string))
  : gmap string schema_entry :=
  list_to_map [
    ("gp_name",
      SchemaEntry (Some "string") None None None);
    ("use_of_international_disclosing_standard",
      SchemaEntry (Some "string") (Some ["yes"; "no"]) None None);
    ("use_of_international_disclosing_standard_tcfd",
      SchemaEntry (Some "string") (Some ["yes"; "no"]) None None);
    ("use_of_international_disclosing_standard_gri",
      SchemaEntry (Some "string") (Some ["yes"; "no"]) None None);
    ("use_of_international_disclosing_standard_sasb",
      SchemaEntry (Some "string") (Some ["yes"; "no"]) None None);
    ("use_of_international_disclosing_standard_tnfd",
      SchemaEntry (Some "string") (Some ["yes"; "no"]) None None);
    ("use_of_international_disclosing_standard_sbti",
      SchemaEntry (Some "string") (Some ["yes"; "no"]) None None);
    ("use_of_international_disclosing_standard_cdp",
      SchemaEntry (Some "string") (Some ["yes"; "no"]) None None);
    ("use_of_international_disclosing_standard_other",
      SchemaEntry (Some "string") (Some ["yes"; "no"]) None None);
    ("use_of_international_disclosing_standard_other_specify",
      SchemaEntry (Some "string") None None None);
    ("use_of_international_disclosing_standard_issb",
      SchemaEntry (Some "string") (Some ["yes"; "no"]) None None);
    ("use_of_international_disclosing_standard_esrs",
      SchemaEntry (Some "string") (Some ["yes"; "no"]) None None);
    ("participates_in_sustainability_climate_initiatives",
      SchemaEntry (Some "string") (Some ["yes"; "no"]) None None);
    ("participates_in_sustainability_climate_initiatives_pri",
      SchemaEntry (Some "string") (Some ["yes"; "no"]) None None);
    ("participates_in_sustainability_climate_initiatives_nzami",
      SchemaEntry (Some "string") (Some ["yes"; "no"]) None None);
    ("participates_in_sustainability_climate_initiatives_ici",
      SchemaEntry (Some "string") (Some ["yes"; "no"]) None None);
    ("participates_in_sustainability_climate_initiatives_transition_pathway_initiative",
      SchemaEntry (Some "string") (Some ["yes"; "no"]) None None);
    ("participates_in_sustainability_climate_initiatives_other",
      SchemaEntry (Some "string") (Some ["yes"; "no"]) None None);
    ("participates_in_sustainability_climate_initiatives_other_specify",
      SchemaEntry (Some "string") None None None);
    ("participates_in_sustainability_climate_initiatives_smi",
      SchemaEntry (Some "string") (Some ["yes"; "no"]) None None);
    ("code_of_conduct",
      SchemaEntry (Some "string") (Some ["yes"; "no"]) None None);
    ("overall_sustainability_policy",
      SchemaEntry (Some "string") (Some ["yes"; "no"]) None None);
    ("environmental_policy",
      SchemaEntry (Some "string") (Some ["yes"; "no"]) None None);
    ("anti_discrimination_and_equal_opportunities_policy",
      SchemaEntry (Some "string") (Some ["yes"; "no"]) None None);
    ("diversity_inclusion_policy",
      SchemaEntry (Some "string") (Some ["yes"; "no"]) None None);
    ("salary_remuneration_policy",
      SchemaEntry (Some "string") (Some ["yes"; "no"]) None None);
    ("health_and_safety_policy",
      SchemaEntry (Some "string") (Some ["yes"; "no"]) None None);
    ("human_rights_policy",
      SchemaEntry (Some "string") (Some ["yes"; "no"]) None None);
    ("anti_corruption_bribery_policy",
      SchemaEntry (Some "string") (Some ["yes"; "no"]) None None);
    ("data_privacy_security_policy",
      SchemaEntry (Some "string") (Some ["yes"; "no"]) None None);
    ("supply_chain_policy",
      SchemaEntry (Some "string") (Some ["yes"; "no"]) None None);
    ("cybersecurity_data_management_policy",
      SchemaEntry (Some "string") (Some ["yes"; "no"]) None None);
    ("number_of_esg_incidents",
      SchemaEntry (Some "integer") None (Some 0) None);
    ("qualitative_info_esg_incidents",
      SchemaEntry (Some "string") None None None);
    ("major_open_litigations",
      SchemaEntry (Some "string") (Some ["yes"; "no"]) None None);
    ("ems_implemented",
      SchemaEntry (Some "string") (Some (option_keys OPTIONS_GP "ems_presence_select")) None None);
    ("environmental_risk_tools",
      SchemaEntry (Some "string") None None None);
    ("ghg_scope_measured_calculated",
      SchemaEntry (Some "string") (Some (option_keys OPTIONS_GP "ghg_scope_list")) None None);
    ("total_ghg_emissions",
      SchemaEntry (Some "float") None (Some 0) None);
    ("total_scope_1_emissions",
      SchemaEntry (Some "float") None (Some 0) None);
    ("total_scope_1_emissions_methodology",
      SchemaEntry (Some "string") (Some (option_keys OPTIONS_GP "ghg_scope_1_methodology")) None None);
    ("total_scope_2_emissions",
      SchemaEntry (Some "float") None (Some 0) None);
    ("total_scope_2_emissions_methodology",
      SchemaEntry (Some "string") (Some (option_keys OPTIONS_GP "ghg_scope_2_methodology")) None None);
    ("total_scope_3_emissions",
      SchemaEntry (Some "float") None (Some 0) None);
    ("total_scope_3_emissions_methodology",
      SchemaEntry (Some "string") (Some (option_keys OPTIONS_GP "ghg_scope_3_methodology")) None None);
    ("total_scope_3_emissions_financed_emissions",
      SchemaEntry (Some "float") None (Some 0) (Some 100));
    ("carbon_offset_tco2e",
      SchemaEntry (Some "float") None (Some 0) None);
    ("emission_reduction_target",
      SchemaEntry (Some "float") None (Some 0) (Some 100));
    ("total_ftes_end_of_report_year",
      SchemaEntry (Some "float") None (Some 0) None);
    ("number_of_ftes_end_of_report_year_female",
      SchemaEntry (Some "float") None (Some 0) None);
    ("number_of_ftes_end_of_report_year_non_binary",
      SchemaEntry (Some "float") None (Some 0) None);
    ("number_of_ftes_end_of_report_year_non_disclosed",
      SchemaEntry (Some "float") None (Some 0) None);
    ("number_of_ftes_end_of_report_year_male",
      SchemaEntry (Some "float") None (Some 0) None);
    ("turnover_fte",
      SchemaEntry (Some "float") None (Some 0) None);
    ("total_number_of_partners",
      SchemaEntry (Some "integer") None (Some 0) None);
    ("number_of_partners_female",
      SchemaEntry (Some "integer") None (Some 0) None);
    ("number_of_partners_non_binary",
      SchemaEntry (Some "integer") None (Some 0) None);
    ("number_of_partners_non_disclosed",
      SchemaEntry (Some "integer") None (Some 0) None);
    ("number_of_partners_male",
      SchemaEntry (Some "integer") None (Some 0) None);
    ("implemented_whistleblower_procedure",
      SchemaEntry (Some "string") (Some (option_keys OPTIONS_GP "whistleblower_procedure")) None None);
    ("number_of_data_breaches",
      SchemaEntry (Some "integer") None (Some 0) None)
  ].

Definition GP_COMPOUND_ID_UNITS : gmap string string :=
  list_to_map [
    ("total_ghg_emissions", "tCO2e");
    ("total_scope_1_emissions", "tCO2e");
    ("total_scope_2_emissions", "tCO2e");
    ("total_scope_3_emissions", "tCO2e");
    ("carbon_offset_tco2e", "tCO2e");
    ("total_ftes_end_of_report_year", "FTEs");
    ("number_of_ftes_end_of_report_year_female", "FTEs");
    ("number_of_ftes_end_of_report_year_non_binary", "FTEs");
    ("number_of_ftes_end_of_report_year_non_disclosed", "FTEs");
    ("number_of_ftes_end_of_report_year_male", "FTEs");
    ("total_number_of_partners", "people");
    ("number_of_partners_female", "people");
    ("number_of_partners_non_binary", "people");
    ("number_of_partners_non_disclosed", "people");
    ("number_of_partners_male", "people");
    ("turnover_fte", "FTEs");
    ("number_of_esg_incidents", "incidents");
    ("total_scope_3_emissions_financed_emissions", "%");
    ("emission_reduction_target", "%");
    ("number_of_data_breaches", "breaches")
  ].

Definition ALL_GP_METRICS : list string := [
    "gp_name"; "use_of_international_disclosing_standard";
    "use_of_international_disclosing_standard_tcfd";
    "use_of_international_disclosing_standard_gri";
    "use_of_international_disclosing_standard_sasb";
    "use_of_international_disclosing_standard_tnfd";
    "use_of_international_disclosing_standard_sbti";
    "use_of_international_disclosing_standard_cdp";
    "use_of_international_disclosing_standard_other";
    "use_of_international_disclosing_standard_other_specify";
    "use_of_international_disclosing_standard_issb";
    "use_of_international_disclosing_standard_esrs";
    "participates_in_sustainability_climate_initiatives";
    "participates_in_sustainability_climate_initiatives_pri";
    "participates_in_sustainability_climate_initiatives_nzami";
    "participates_in_sustainability_climate_initiatives_ici";
    "participates_in_sustainability_climate_initiatives_transition_pathway_initiative";
    "participates_in_sustainability_climate_initiatives_other";
    "participates_in_sustainability_climate_initiatives_other_specify";
    "participates_in_sustainability_climate_initiatives_smi"; "code_of_conduct";
    "overall_sustainability_policy"; "environmental_policy";
    "anti_discrimination_and_equal_opportunities_policy"; "diversity_inclusion_policy";
    "salary_remuneration_policy"; "health_and_safety_policy"; "human_rights_policy";
    "anti_corruption_bribery_policy"; "data_privacy_security_policy";
    "supply_chain_policy"; "cybersecurity_data_management_policy";
    "number_of_esg_incidents"; "qualitative_info_esg_incidents";
    "major_open_litigations"; "ems_implemented"; "environmental_risk_tools";
    "ghg_scope_measured_calculated"; "total_ghg_emissions"; "total_scope_1_emissions";
    "total_scope_1_emissions_methodology"; "total_scope_2_emissions";
    "total_scope_2_emissions_methodology"; "total_scope_3_emissions";
    "total_scope_3_emissions_methodology";
    "total_scope_3_emissions_financed_emissions"; "carbon_offset_tco2e";
    "emission_reduction_target"; "total_ftes_end_of_report_year";
    "number_of_ftes_end_of_report_year_female";
    "number_of_ftes_end_of_report_year_non_binary";
    "number_of_ftes_end_of_report_year_non_disclosed";
    "number_of_ftes_end_of_report_year_male"; "total_number_of_partners";
    "number_of_partners_female"; "number_of_partners_non_binary";
    "number_of_partners_non_disclosed"; "number_of_partners_male"; "turnover_fte";
    "implemented_whistleblower_procedure"; "number_of_data_breaches"
  ].

Definition REQUIRED_GP_METRICS : list string := [
    "gp_name"; "use_of_international_disclosing_standard";
    "participates_in_sustainability_climate_initiatives"; "code_of_conduct";
    "overall_sustainability_policy"; "environmental_policy";
    "anti_discrimination_and_equal_opportunities_policy"; "diversity_inclusion_policy";
    "salary_remuneration_policy"; "health_and_safety_policy"; "human_rights_policy";
    "anti_corruption_bribery_policy"; "data_privacy_security_policy";
    "supply_chain_policy"; "cybersecurity_data_management_policy";
    "number_of_esg_incidents"; "qualitative_info_esg_incidents";
    "major_open_litigations"; "ems_implemented"; "ghg_scope_measured_calculated";
    "total_ghg_emissions"; "total_scope_1_emissions";
    "total_scope_1_emissions_methodology"; "total_scope_2_emissions";
    "total_scope_2_emissions_methodology"; "total_scope_3_emissions";
    "total_scope_3_emissions_methodology"; "carbon_offset_tco2e";
    "emission_reduction_target"; "total_ftes_end_of_report_year";
    "number_of_ftes_end_of_report_year_female";
    "number_of_ftes_end_of_report_year_non_binary";
    "number_of_ftes_end_of_report_year_non_disclosed";
    "number_of_ftes_end_of_report_year_male"; "total_number_of_partners";
    "number_of_partners_female"; "number_of_partners_non_binary";
    "number_of_partners_non_disclosed"; "number_of_partners_male"; "turnover_fte";
    "implemented_whistleblower_procedure"; "number_of_data_breaches";
    "total_scope_3_emissions_financed_emissions"
  ].

Definition gp_tables (OPTIONS_GP : list (string * gmap string string)) : entity_tables :=
  EntityTables ALL_GP_METRICS REQUIRED_GP_METRICS (SCHEMA_GP OPTIONS_GP)
    GP_COMPOUND_ID_UNITS OPTIONS_GP.

(** [validate_metrics_by_fund(fund_data, schema)]; the tables that the
    function imports from [validation_mappings.schema_fund] and
    [validation_mappings.options_fund] are a parameter. *)
Definition validate_metrics_by_fund
    (validator : string -> schema_entry -> pyval -> option string)
    (T : entity_tables) (fund_data : dataset) (schema : gmap string schema_entry)
  : result EntitySummary.t :=
  validate_entity validator Fund T fund_data schema special_relations_fund.

(** [validate_metrics_by_gp(gp_data, schema)] over the tables of
    [validation_mappings.schema_gp]; the label dictionaries [OPTIONS_GP] of
    [validation_mappings.options_gp] are a parameter. *)
Definition validate_metrics_by_gp
    (validator : string -> schema_entry -> pyval -> option string)
    (OPTIONS_GP : list (string * gmap string string))
    (gp_data : dataset) (schema : gmap string schema_entry)
  : result EntitySummary.t :=
  validate_entity validator Gp (gp_tables OPTIONS_GP) gp_data schema special_relations_gp.

(** ** Bucket mutations

    Every statement of the functions that touches a bucket is one of four
    mutations; the proofs below follow a call through the list of mutations
    it performs. *)

Inductive bucket_kind : Type :=
| Valid | Error | Unknown | Blank | Recommended | Missing | Warning.

#[export] Instance bucket_kind_eq_dec : EqDecision bucket_kind.
Proof. solve_decision. Defined.

Definition bucket (k : bucket_kind) (b : buckets) : list line :=
  match k with
  | Valid => valid_lines b
  | Error => error_lines b
  | Unknown => unknown_lines b
  | Blank => blank_lines b
  | Recommended => recommended_but_missing_lines b
  | Missing => missing_metrics b
  | Warning => warning_lines b
  end.

Definition update (k : bucket_kind) (f : list line -> list line) (b : buckets) : buckets :=
  match k with
  | Valid => set_valid f b
  | Error => set_error f b
  | Unknown => set_unknown f b
  | Blank => set_blank f b
  | Recommended => set_recommended f b
  | Missing => set_missing f b
  | Warning => set_warning f b
  end.

Inductive mutation : Type :=
| AppendTo (k : bucket_kind) (l : line)
| Without (k : bucket_kind) (field : string)
| Replace (k : bucket_kind) (l : line)
| Annotate (field : string) (level : level_value).

Definition mutate (b : buckets) (m : mutation) : buckets :=
  match m with
  | AppendTo k l => update k (append l) b
  | Without k field => update k (without field) b
  | Replace k l => update k (fun xs => append l (without (compound_id l) xs)) b
  | Annotate field level => set_valid (annotate_first field level) b
  end.

Definition run (ms : list mutation) (b : buckets) : buckets := fold_left mutate ms b.

(** The bucket a mutation writes to, and the id it is about. *)
Definition target_kind (m : mutation) : bucket_kind :=
  match m with
  | AppendTo k _ | Without k _ | Replace k _ => k
  | Annotate _ _ => Valid
  end.

Definition target_id (m : mutation) : string :=
  match m with
  | AppendTo _ l | Replace _ l => compound_id l
  | Without _ field | Annotate field _ => field
  end.

Definition adds (m : mutation) : option line :=
  match m with
  | AppendTo _ l | Replace _ l => Some l
  | _ => None
  end.

(** The ids a rule can require: the total of a subset-total rule and the
    dependents of a conditional requirement. *)
Definition targets (r : relation) : list string :=
  match r with
  | SubsetTotal _ total_field => [total_field]
  | Conditional _ _ dependent_ids => dependent_ids
  | _ => []
  end.

(** A requirement level that none of the tier names of [missing_counts]
    equals. *)
Definition tier_names : list string := ["minimum"; "intermediate"; "full"].

Definition off_tier (l : line) : Prop :=
  exists s, requirement_level l = Some (LevelStr s) /\ s ∉ tier_names.

(** The records of a bucket about one id. *)
Definition about (cid : string) (xs : list line) : list line :=
  filter (fun l => compound_id l = cid) xs.



(** What a classification of [cid] may do to the buckets: append one record
    about [cid], to a bucket other than [Unknown] and [Warning]. *)
Definition classifies (cid : string) (m : mutation) : Prop :=
  exists k l, m = AppendTo k l /\ compound_id l = cid /\
    k <> Unknown /\ k <> Warning /\ (k = Missing -> off_tier l).

(** What a relation rule may do to the buckets. *)
Definition relates (r : relation) (m : mutation) : Prop :=
  match m with
  | AppendTo k _ => k = Error \/ k = Warning
  | Without k _ => k = Valid \/ k = Blank
  | Replace k l =>
      (k = Missing \/ k = Recommended) /\ compound_id l ∈ targets r /\ off_tier l
  | Annotate _ _ => True
  end.

(** ** An example configuration

    The tables of the company and of the fund function are parameters of
    the embedding; the examples run the functions on a cut of the metric
    universe made of ids that the rule lists name, with a validator for the
    four rule keys that the GP schema uses. *)

(** The cerberus rules [type], [allowed], [min] and [max]: a value of the
    wrong type is reported alone, the other rules each add a report. *)
Definition type_accepts (ty : string) (v : pyval) : bool :=
  match v with
  | VInt _ => in_list ty ["integer"; "float"; "number"]
  | VFloat _ => in_list ty ["float"; "number"]
  | VStr _ => str_eqb ty "string"
  end.

Definition below (v : pyval) (bound : Z) : bool :=
  match v with
  | VInt n => n <? bound
  | VFloat x => match int_float_compare bound x with Some Gt => true | _ => false end
  | VStr _ => false
  end.

Definition above (v : pyval) (bound : Z) : bool :=
  match v with
  | VInt n => bound <? n
  | VFloat x => match int_float_compare bound x with Some Lt => true | _ => false end
  | VStr _ => false
  end.

Definition rule_reports (entry : schema_entry) (v : pyval) : list string :=
  match se_type entry with
  | Some ty =>
      if negb (type_accepts ty v) then ["must be of " +:+ ty +:+ " type"] else []
  | None => []
  end.

Definition value_reports (entry : schema_entry) (v : pyval) : list string :=
  (match se_allowed entry, v with
   | Some allowed, VStr s => if in_list s allowed then [] else ["unallowed value " +:+ s]
   | Some allowed, _ => ["unallowed value " +:+ value_str v]
   | None, _ => []
   end ++
   match se_min entry with
   | Some bound => if below v bound then ["min value is " +:+ str_of_int bound] else []
   | None => []
   end ++
   match se_max entry with
   | Some bound => if above v bound then ["max value is " +:+ str_of_int bound] else []
   | None => []
   end)%list.

Definition cerberus (compound_id : string) (entry : schema_entry) (v : pyval)
  : option string :=
  let reports :=
    match rule_reports entry v with
    | [] => value_reports entry v
    | reports => reports
    end in
  if is_nil reports then None
  else Some ("{'" +:+ compound_id +:+ "': ['" +:+ join "', '" reports +:+ "']}").

(** The rows of an import file, as [read_and_organize_csv] files them: the
    value and the status of each row under its compound id. *)
Definition organize (rows : list (string * string * string)) : dataset :=
  fold_left (fun data row =>
               Dataset (<[row.1.1 := row.1.2]> (metrics data))
                       (<[row.1.1 := row.2]> (status data)))
    rows (Dataset ∅ ∅).

Definition yes_no : option (list string) := Some ["yes"; "no"].

Definition example_tables : portco_tables :=
  PortcoTables
    ["company_name"; "currency"; "total_ftes_end_of_report_year";
     "sustainability_responsibility_none"; "sustainability_responsibility_cfo";
     "tobacco_activities"]
    ["percentage_turnover_tobacco_activities";
     "number_of_ftes_end_of_report_year_female";
     "number_of_ftes_end_of_report_year_male"]
    ["total_ghg_emissions"]
    ["listed_ticker"]
    ["company_name"; "currency"; "total_ftes_end_of_report_year";
     "sustainability_responsibility_none"; "sustainability_responsibility_cfo";
     "tobacco_activities"; "percentage_turnover_tobacco_activities";
     "number_of_ftes_end_of_report_year_female";
     "number_of_ftes_end_of_report_year_male"; "total_ghg_emissions"; "listed_ticker"]
    (list_to_map [
       ("company_name", SchemaEntry (Some "string") None None None);
       ("currency", SchemaEntry (Some "string") None None None);
       ("total_ftes_end_of_report_year", SchemaEntry (Some "float") None (Some 0) None);
       ("sustainability_responsibility_none", SchemaEntry (Some "string") yes_no None None);
       ("sustainability_responsibility_cfo", SchemaEntry (Some "string") yes_no None None);
       ("tobacco_activities", SchemaEntry (Some "string") yes_no None None);
       ("percentage_turnover_tobacco_activities",
         SchemaEntry (Some "float") None (Some 0) (Some 100));
       ("number_of_ftes_end_of_report_year_female",
         SchemaEntry (Some "float") None (Some 0) None);
       ("number_of_ftes_end_of_report_year_male",
         SchemaEntry (Some "float") None (Some 0) None);
       ("total_ghg_emissions", SchemaEntry (Some "float") None (Some 0) None);
       ("listed_ticker", SchemaEntry (Some "string") None None None)])
    (list_to_map [
       ("total_ftes_end_of_report_year", "FTEs");
       ("percentage_turnover_tobacco_activities", "%");
       ("total_ghg_emissions", "tCO2e")])
    [("yes_no", list_to_map [("yes", "Yes"); ("no", "No")])].

Definition run_company (rows : list (string * string * string)) : result Summary.t :=
  validate_metrics_by_company cerberus example_tables (organize rows)
    (SCHEMA_PORTCO example_tables).

Definition run_gp (rows : list (string * string * string)) : result EntitySummary.t :=
  validate_metrics_by_gp cerberus [] (organize rows) (SCHEMA_GP []).

(** A company of 20 FTEs that answers every question it is asked. *)
Definition complete_rows (fte : string) : list (string * string * string) := [
  ("company_name", "Acme", "provided");
  ("currency", "EUR", "provided");
  ("total_ftes_end_of_report_year", fte, "provided");
  ("sustainability_responsibility_none", "no", "provided");
  ("sustainability_responsibility_cfo", "yes", "provided");
  ("tobacco_activities", "no", "provided");
  ("percentage_turnover_tobacco_activities", "0", "provided");
  ("number_of_ftes_end_of_report_year_female", "12", "provided");
  ("number_of_ftes_end_of_report_year_male", "8", "provided");
  ("total_ghg_emissions", "3.5", "provided");
  ("listed_ticker", "ACM", "provided")].

(** The same file with some rows written anew; a later row replaces an
    earlier one, as in the reader. *)
Definition amended (rows : list (string * string * string)) : list (string * string * string) :=
  (complete_rows "20" ++ rows)%list.

(** The bucket lists that a summary hands on. *)
Definition summary_buckets (s : Summary.t) : buckets :=
  Buckets (Summary.correct_lines s) (Summary.error_lines s) (Summary.unknown_lines s)
    (Summary.blank_lines s) (Summary.recommended_but_missing_lines s)
    (Summary.missing_metrics s) (Summary.warning_lines s).

(** No rule after a conditional requirement requires one of its dependents
    again. *)
Fixpoint isolated (rules : list relation) : bool :=
  match rules with
  | [] => true
  | r :: rest =>
      match r with
      | Conditional _ _ dependent_ids =>
          forallb (fun dep => forallb (fun r' => negb (in_list dep (targets r'))) rest)
            dependent_ids
      | _ => true
      end && isolated rest
  end.

(** The outcome of a conflict for the conflicting field [f]: out of the
    valid and the blank bucket, and in the error bucket with the record of
    the conflict. *)
Definition conflicted (f t v : string) (b : buckets) : Prop :=
  (f ∉ ids (valid_lines b)) /\ (f ∉ ids (blank_lines b)) /\
  (conflict_line f t v ∈ error_lines b).

(** The rows of a file without those about one id. *)
Definition without_row (cid : string) (rows : list (string * string * string))
  : list (string * string * string) :=
  filter (fun row => row.1.1 ≠ cid) rows.

(** The record that a triggered conditional requirement files for a
    dependent that the import file does not have. *)
Definition absent_dependent_line (condition_id condition_value dependent_id : string) : line :=
  level_reason_line dependent_id (because_condition condition_id condition_value)
    "Not in import file at all".

(** The reasons that the classification attaches to an escalated metric. *)
Definition minimum_reason : string :=
  "Status is 'not_applicable' or 'not_available', but this is a 'minimum' metric.".
Definition intermediate_reason : string :=
  "Status is 'not_applicable' or 'not_available', but this is an 'intermediate' metric for companies with FTE higher than 15.".
Definition full_reason : string :=
  "Status is 'not_applicable' or 'not_available', but all metrics are strongly recommended for companies with FTE higher than 250.".
Definition unknown_reason : string :=
  "Status is 'not_applicable' or 'not_available'. Unknown level of requirement for this company since total_ftes_end_of_report_year is not provided.".

(** The two outcomes of the classification of an exempted metric: the record
    goes to recommended_but_missing with a reason, or to blank with the
    reason of its status. *)
Definition escalated (T : portco_tables) (st : classify_state) (cid why : string)
  : result classify_state :=
  let level := tier_level T cid "Value not required" in
  Ok (ClassifyState
        (set_recommended (append (level_reason_line cid level why)) (cs_buckets st))
        (Some level)).

Definition kept_blank (T : portco_tables) (d : dataset) (st : classify_state) (cid : string)
  : result classify_state :=
  let level := tier_level T cid "Value not required" in
  Ok (ClassifyState
        (set_blank (append (level_reason_line cid level
           (not_mandatory_reason (default "" (status d !! cid))))) (cs_buckets st))
        (Some level)).

(** The dependents of the conditional requirements that a file triggers, in
    rule order, with repetitions. *)
Definition triggered_dependents (d : dataset) (rules : list relation) : list string :=
  flat_map (fun r =>
              match r with
              | Conditional c v deps => if get_is (metrics d) c v then deps else []
              | _ => []
              end) rules.

(** The list [required] at the end of the fund or GP function. *)
Definition required_list (T : entity_tables) (d : dataset) (rules : list relation)
  : list string :=
  (REQUIRED_ENTITY_METRICS T ++ triggered_dependents d rules)%list.

(** The completion that the fund and GP functions report for [n] valid
    required records and a required list of [k] entries. *)
Definition completion (valid : list line) (required : list string) : result float :=
  percentage (length (filter (fun l => compound_id l ∈ required) valid)) (length required).

Definition example_fund_tables : entity_tables :=
  EntityTables
    ["fund_name"; "adhere_to_ungc"; "no_ungc_explanation"; "total_number_of_partners";
     "number_of_partners_female"]
    ["fund_name"; "adhere_to_ungc"; "total_number_of_partners"]
    (list_to_map [
       ("fund_name", SchemaEntry (Some "string") None None None);
       ("adhere_to_ungc", SchemaEntry (Some "string") yes_no None None);
       ("no_ungc_explanation", SchemaEntry (Some "string") None None None);
       ("total_number_of_partners", SchemaEntry (Some "integer") None (Some 0) None);
       ("number_of_partners_female", SchemaEntry (Some "integer") None (Some 0) None)])
    (list_to_map [("total_number_of_partners", "people");
                  ("number_of_partners_female", "people")])
    [("yes_no", list_to_map [("yes", "Yes"); ("no", "No")])].

Definition run_fund (rows : list (string * string * string)) : result EntitySummary.t :=
  validate_metrics_by_fund cerberus example_fund_tables (organize rows)
    (SCHEMA_ENTITY example_fund_tables).

(** * Proofs *)

(** ** Loops *)

Lemma bind_ok {A B} (r : result A) (k : A -> result B) (b : B) :
  r ≫= k = Ok b -> exists a, r = Ok a /\ k a = Ok b.
Proof. destruct r as [a|e]; simpl; [eauto | discriminate]. Qed.

Lemma for_each_app {S X} (body : S -> X -> result S) (xs ys : list X) (st : S) :
  for_each body (xs ++ ys) st = for_each body xs st ≫= for_each body ys.
Proof.
  revert st; induction xs as [|x xs IH]; intros st; simpl; [reflexivity|].
  destruct (body st x) as [st'|e]; simpl; [apply IH | reflexivity].
Qed.

(** A loop that returns has run every iteration. *)
Lemma for_each_steps {S X} (body : S -> X -> result S) (step : S -> S -> Prop) :
  (forall st, step st st) ->
  (forall a b c, step a b -> step b c -> step a c) ->
  forall xs st st',
    (forall x a b, x ∈ xs -> body a x = Ok b -> step a b) ->
    for_each body xs st = Ok st' -> step st st'.
Proof.
  intros Hrefl Htrans xs; induction xs as [|x xs IH]; intros st st' Hbody H; simpl in H.
  - injection H as <-. apply Hrefl.
  - apply bind_ok in H as (mid & H1 & H2).
    apply Htrans with mid.
    + eapply Hbody; [left | exact H1].
    + apply IH; [|exact H2]. intros y a b Hy. apply Hbody. now right.
Qed.

(** A loop with an iteration that raises from every state raises. *)
Lemma for_each_raises {S X} (body : S -> X -> result S) (xs : list X) (x : X) :
  x ∈ xs -> (forall st, returns (body st x) = false) ->
  forall st, returns (for_each body xs st) = false.
Proof.
  intros Hx Hraise; induction xs as [|y xs IH]; intros st; [inversion Hx|].
  simpl. destruct (body st y) as [st'|e] eqn:E; simpl; [|reflexivity].
  apply elem_of_cons in Hx as [->|Hx]; [|now apply IH].
  specialize (Hraise st). rewrite E in Hraise. discriminate.
Qed.

(** ** Mutations *)

Lemma run_app (ms ns : list mutation) (b : buckets) :
  run (ms ++ ns) b = run ns (run ms b).
Proof. apply fold_left_app. Qed.

Lemma bucket_update_eq (k : bucket_kind) (f : list line -> list line) (b : buckets) :
  bucket k (update k f b) = f (bucket k b).
Proof. destruct k; reflexivity. Qed.

Lemma bucket_update_ne (k j : bucket_kind) (f : list line -> list line) (b : buckets) :
  j <> k -> bucket j (update k f b) = bucket j b.
Proof. destruct k, j; intros H; try reflexivity; now destruct H. Qed.

Lemma ids_append (l : line) (xs : list line) : ids (append l xs) = (ids xs ++ [compound_id l])%list.
Proof. unfold ids, append. now rewrite map_app. Qed.

Lemma elem_of_ids_without (x field : string) (xs : list line) :
  x ∈ ids (without field xs) <-> x ∈ ids xs /\ x <> field.
Proof.
  unfold ids, without. rewrite !list_elem_of_fmap. split.
  - intros (l & -> & Hl). apply list_elem_of_filter in Hl as [Hne Hl]. split; [eauto | exact Hne].
  - intros [(l & -> & Hl) Hne]. exists l. split; [reflexivity|]. now apply list_elem_of_filter.
Qed.

Lemma ids_annotate_first (field : string) (level : level_value) (xs : list line) :
  ids (annotate_first field level xs) = ids xs.
Proof.
  induction xs as [|x xs IH]; simpl; [reflexivity|].
  destruct (str_eqb (compound_id x) field); simpl; [reflexivity | now rewrite IH].
Qed.

Lemma mutate_other_bucket (k : bucket_kind) (m : mutation) (b : buckets) :
  target_kind m <> k -> bucket k (mutate b m) = bucket k b.
Proof.
  intros Hm.
  destruct m as [j l|j f|j l|f lv]; simpl in *; try (now apply bucket_update_ne).
  destruct k; try reflexivity. now destruct Hm.
Qed.

(** A bucket that no mutation of a run writes to is unchanged. *)
Lemma run_other_bucket (k : bucket_kind) (ms : list mutation) (b : buckets) :
  Forall (fun m => target_kind m <> k) ms -> bucket k (run ms b) = bucket k b.
Proof.
  revert b; induction ms as [|m ms IH]; intros b H; [reflexivity|].
  apply Forall_cons in H as [Hm H]. simpl. rewrite IH by exact H.
  now apply mutate_other_bucket.
Qed.

(** A record stays in a bucket through a run that filters nothing out of
    it and annotates nothing. *)
Lemma run_keeps (k : bucket_kind) (l : line) (ms : list mutation) (b : buckets) :
  Forall (fun m => target_kind m = k -> exists l', m = AppendTo k l') ms ->
  l ∈ bucket k b -> l ∈ bucket k (run ms b).
Proof.
  revert b; induction ms as [|m ms IH]; intros b H Hl; [exact Hl|].
  apply Forall_cons in H as [Hm H]. simpl. apply IH; [exact H|].
  destruct (decide (target_kind m = k)) as [E|E].
  - destruct (Hm E) as [l' ->]. simpl. rewrite bucket_update_eq.
    unfold append. apply elem_of_app. now left.
  - now rewrite mutate_other_bucket.
Qed.

(** An id stays out of a bucket through a run that adds no record about it. *)
Lemma run_keeps_out (k : bucket_kind) (x : string) (ms : list mutation) (b : buckets) :
  Forall (fun m => target_kind m = k -> forall l, adds m = Some l -> compound_id l <> x) ms ->
  x ∉ ids (bucket k b) -> x ∉ ids (bucket k (run ms b)).
Proof.
  revert b; induction ms as [|m ms IH]; intros b H Hx; [exact Hx|].
  apply Forall_cons in H as [Hm H]. simpl. apply IH; [exact H|].
  destruct (decide (target_kind m = k)) as [E|E].
  - destruct m as [j l|j f|j l|f lv]; simpl in *; subst; rewrite ?bucket_update_eq.
    + rewrite ids_append, elem_of_app, list_elem_of_singleton.
      intros [?|?]; [tauto|]. now apply (Hm eq_refl l).
    + rewrite elem_of_ids_without. tauto.
    + rewrite ids_append, elem_of_app, list_elem_of_singleton, elem_of_ids_without.
      intros [[? _]|?]; [tauto|]. now apply (Hm eq_refl l).
    + now rewrite ids_annotate_first.
  - now rewrite mutate_other_bucket.
Qed.

Lemma Forall_without (P : line -> Prop) (field : string) (xs : list line) :
  Forall P xs -> Forall P (without field xs).
Proof.
  rewrite !Forall_forall. intros H l Hl.
  apply list_elem_of_filter in Hl as [_ Hl]. now apply H.
Qed.

(** A property of the records of a bucket holds after a run when it holds
    of every record the run adds; annotations only concern [Valid]. *)
Lemma run_Forall (k : bucket_kind) (P : line -> Prop) (ms : list mutation) (b : buckets) :
  k <> Valid ->
  Forall (fun m => target_kind m = k -> forall l, adds m = Some l -> P l) ms ->
  Forall P (bucket k b) -> Forall P (bucket k (run ms b)).
Proof.
  intros Hk. revert b; induction ms as [|m ms IH]; intros b H Hb; [exact Hb|].
  apply Forall_cons in H as [Hm H]. simpl. apply IH; [exact H|].
  destruct (decide (target_kind m = k)) as [E|E].
  - destruct m as [j l|j f|j l|f lv]; simpl in *; subst; rewrite ?bucket_update_eq.
    + apply Forall_app. split; [exact Hb|]. constructor; [now apply Hm | constructor].
    + now apply Forall_without.
    + apply Forall_app. split; [now apply Forall_without|].
      constructor; [now apply Hm | constructor].
    + now destruct Hk.
  - now rewrite mutate_other_bucket.
Qed.

Lemma about_append (x : string) (l : line) (xs : list line) :
  about x (append l xs) = (about x xs ++ about x [l])%list.
Proof. unfold about, append. apply filter_app. Qed.

Lemma about_without (x field : string) (xs : list line) :
  about x (without field xs) = if bool_decide (x = field) then [] else about x xs.
Proof.
  unfold about, without. induction xs as [|y ys IH]; simpl; [now case_bool_decide|].
  rewrite !filter_cons. repeat case_decide; repeat case_bool_decide; subst; simpl;
    rewrite ?filter_cons; repeat case_decide; try congruence; try tauto;
    rewrite ?IH; repeat case_bool_decide; try congruence; try tauto.
Qed.

(** The records about an id are those of the last replacement once no later
    mutation of the bucket is about that id. *)
Lemma run_about (k : bucket_kind) (x : string) (ms : list mutation) (b : buckets) :
  k <> Valid ->
  Forall (fun m => target_kind m = k -> target_id m <> x) ms ->
  about x (bucket k (run ms b)) = about x (bucket k b).
Proof.
  intros Hk. revert b; induction ms as [|m ms IH]; intros b H; [reflexivity|].
  apply Forall_cons in H as [Hm H]. simpl. rewrite IH by exact H.
  destruct (decide (target_kind m = k)) as [E|E].
  - specialize (Hm E).
    destruct m as [j l|j f|j l|f lv]; simpl in *; subst; rewrite ?bucket_update_eq.
    + rewrite about_append. unfold about at 2. rewrite filter_cons.
      case_decide; [congruence|]. now rewrite filter_nil, app_nil_r.
    + rewrite about_without. case_bool_decide; [congruence | reflexivity].
    + rewrite about_append, about_without. case_bool_decide; [congruence|].
      unfold about at 2. rewrite filter_cons.
      case_decide; [congruence|]. now rewrite filter_nil, app_nil_r.
    + now destruct Hk.
  - now rewrite mutate_other_bucket.
Qed.

(** ** The mutations of each step *)

Ltac open_binds H := unfold mbind, mret, fmap, result_bind, result_ret, result_fmap in H.

Ltac crunch H :=
  repeat (open_binds H; simpl in H;
    match type of H with
    | Ok _ = Ok _ => injection H as H; try subst
    | Raise _ = Ok _ => discriminate H
    | context [match ?x with _ => _ end] => let E := fresh "E" in destruct x eqn:E
    end).

Lemma tier_names_free (s : string) :
  s ∈ ["Minimum"; "Intermediate"; "Full"; "Value not required";
       "Value not required (optional)"] -> s ∉ tier_names.
Proof.
  unfold tier_names. rewrite !elem_of_cons, !elem_of_nil.
  intros [->|[->|[->|[->|[->|[]]]]]] [?|[?|[?|[]]]]; discriminate.
Qed.

Lemma tier_level_cases (T : portco_tables) (cid otherwise : string) :
  tier_level T cid otherwise ∈ ["Minimum"; "Intermediate"; "Full"; otherwise].
Proof.
  unfold tier_level. rewrite !elem_of_cons.
  repeat destruct (in_list _ _); auto.
Qed.

Lemma because_condition_free (c v : string) : because_condition c v ∉ tier_names.
Proof.
  unfold tier_names, because_condition. rewrite !elem_of_cons, !elem_of_nil.
  intros [?|[?|[?|[]]]]; discriminate.
Qed.

Lemma because_subset_free (cs : list string) : because_subset cs ∉ tier_names.
Proof.
  unfold tier_names, because_subset. rewrite !elem_of_cons, !elem_of_nil.
  intros [?|[?|[?|[]]]]; discriminate.
Qed.

Lemma off_tier_line (cid level why : string) :
  level ∉ tier_names -> off_tier (level_reason_line cid level why).
Proof. intros H. exists level. split; [reflexivity | exact H]. Qed.

Section CompanySteps.
Variable validator : string -> schema_entry -> pyval -> option string.
Variable T : portco_tables.
Variable d : dataset.
Variable schema : gmap string schema_entry.

Lemma classifies_append (cid : string) (k : bucket_kind) (l : line) :
  compound_id l = cid -> k <> Unknown -> k <> Warning -> (k = Missing -> off_tier l) ->
  Forall (classifies cid) [AppendTo k l].
Proof. intros; constructor; [|constructor]. exists k, l. auto. Qed.

Lemma classify_exempt_trace (b b' : buckets) (cid status : string) :
  classify_exempt T d b cid status = Ok b' ->
  exists ms, b' = run ms b /\ Forall (classifies cid) ms.
Proof.
  unfold classify_exempt, item. intros H. crunch H;
    first [ (exists []; split; [reflexivity | constructor])
          | (eexists [AppendTo Recommended _]; split; [reflexivity|];
             apply classifies_append; [reflexivity | discriminate | discriminate | discriminate])
          | (eexists [AppendTo Blank _]; split; [reflexivity|];
             apply classifies_append; [reflexivity | discriminate | discriminate | discriminate]) ].
Qed.

Lemma classify_trace (st st' : classify_state) (cid : string) :
  classify validator T d schema st cid = Ok st' ->
  exists ms, cs_buckets st' = run ms (cs_buckets st) /\ Forall (classifies cid) ms.
Proof.
  unfold classify, item. intros H.
  destruct (metrics d !! cid) as [raw|] eqn:Hraw.
  - destruct (exempt _) eqn:Hex.
    + apply bind_ok in H as (b' & H1 & H2). injection H2 as <-.
      simpl. now apply classify_exempt_trace with (status := default "" (status d !! cid)).
    + crunch H; simpl;
        first [ (eexists [AppendTo Error _]; split; [reflexivity|];
                 apply classifies_append; [reflexivity | discriminate | discriminate | discriminate])
              | (eexists [AppendTo Valid _]; split; [reflexivity|];
                 apply classifies_append; [reflexivity | discriminate | discriminate | discriminate]) ].
  - injection H as <-. simpl.
    eexists [AppendTo Missing _]; split; [reflexivity|].
    apply classifies_append; [reflexivity | discriminate | discriminate |].
    intros _. apply off_tier_line, tier_names_free.
    pose proof (tier_level_cases T cid "Value not required (optional)") as Hc.
    revert Hc. rewrite !elem_of_cons, !elem_of_nil. intuition congruence.
Qed.

Lemma classify_all_trace (st : classify_state) :
  classify_all validator T d schema = Ok st ->
  exists ms, cs_buckets st = run ms no_lines /\
    Forall (fun m => exists cid, cid ∈ ALL_METRICS T /\ classifies cid m) ms.
Proof.
  unfold classify_all.
  set (step := fun a b : classify_state =>
    exists ms, cs_buckets b = run ms (cs_buckets a) /\
      Forall (fun m => exists cid, cid ∈ ALL_METRICS T /\ classifies cid m) ms).
  intros H. apply (for_each_steps _ step) in H; [exact H| | |].
  - intros a. exists []. split; [reflexivity | constructor].
  - intros a b c (ms & Eb & Hms) (ns & Ec & Hns). exists (ms ++ ns)%list.
    split; [now rewrite run_app, <- Eb | now apply Forall_app].
  - intros cid a b Hcid Hstep. apply classify_trace in Hstep as (ms & E & Hms).
    exists ms. split; [exact E|].
    eapply Forall_impl; [exact Hms|]. intros m Hm. now exists cid.
Qed.

(** The relation steps. *)

Lemma relates_replace (r : relation) (k : bucket_kind) (field level why : string) :
  k = Missing \/ k = Recommended -> field ∈ targets r -> level ∉ tier_names ->
  relates r (Replace k (level_reason_line field level why)).
Proof. intros Hk Hf Hl. split; [exact Hk|]. split; [exact Hf | now apply off_tier_line]. Qed.

Ltac relates_all :=
  repeat first [ apply Forall_nil | apply Forall_cons; split ];
  try (apply relates_replace; now auto); simpl; auto.

Lemma require_field_trace (r : relation) (field level : string) (b b' : buckets) :
  field ∈ targets r -> level ∉ tier_names ->
  require_field d field level b = Some b' ->
  exists ms, b' = run ms b /\ Forall (relates r) ms.
Proof.
  intros Hf Hl. unfold require_field, replace_missing, replace_recommended.
  destruct (metrics d !! field) as [v|].
  - destruct (str_eqb v "" && negb (exempt _)).
    + intros [= <-].
      exists [Replace Missing (level_reason_line field level "Value is blank");
              Without Valid field; Without Blank field].
      split; [reflexivity|].
      relates_all.
    + destruct (exempt _); [|discriminate]. intros [= <-].
      exists [Replace Recommended
                (level_reason_line field level "Marked as not_applicable or not_available");
              Without Blank field].
      split; [reflexivity|].
      relates_all.
  - intros [= <-].
    exists [Replace Missing (level_reason_line field level "Not in import file at all");
            Without Blank field].
    split; [reflexivity|].
    relates_all.
Qed.

Lemma fold_left_trace {X} (f : buckets -> X -> buckets) (P : mutation -> Prop)
    (xs : list X) (b : buckets) :
  (forall a x, x ∈ xs -> exists ms, f a x = run ms a /\ Forall P ms) ->
  exists ms, fold_left f xs b = run ms b /\ Forall P ms.
Proof.
  revert b; induction xs as [|x xs IH]; intros b H; simpl.
  - exists []. split; [reflexivity | constructor].
  - destruct (H b x) as (ms & E & Hms); [left|].
    destruct (IH (f b x)) as (ns & E' & Hns); [intros a y Hy; apply H; now right|].
    exists (ms ++ ns)%list. split; [now rewrite run_app, <- E | now apply Forall_app].
Qed.

Lemma conflict_trace (r : relation) (t v : string) (fields : list string) (b : buckets) :
  exists ms, conflict d t v fields b = run ms b /\ Forall (relates r) ms.
Proof.
  unfold conflict. destruct (get_is _ t v).
  - apply fold_left_trace. intros a f _. unfold conflict_field.
    destruct (get_is _ f "yes").
    + exists [Without Valid f; Without Blank f; AppendTo Error (conflict_line f t v)].
      split; [reflexivity|]. relates_all.
    + exists []. split; [reflexivity | constructor].
  - exists []. split; [reflexivity | constructor].
Qed.

Lemma sum_check_cases (total_field : string) (comps : list string) (p : Z)
    (b b' : buckets) :
  sum_check d schema total_field comps p b = Ok b' ->
  b' = b \/ exists l, b' = set_warning (append l) b.
Proof.
  unfold sum_check. intros H. crunch H; eauto.
Qed.

Lemma sum_check_trace (r : relation) (total_field : string) (comps : list string) (p : Z)
    (b b' : buckets) :
  sum_check d schema total_field comps p b = Ok b' ->
  exists ms, b' = run ms b /\ Forall (relates r) ms.
Proof.
  intros H. apply sum_check_cases in H as [->|[l ->]].
  - exists []. split; [reflexivity | constructor].
  - exists [AppendTo Warning l]. split; [reflexivity|]. relates_all.
Qed.

Lemma conditional_dependent_trace (c v : string) (deps : list string)
    (st : relation_state) (dep : string) :
  dep ∈ deps ->
  exists ms, rs_buckets (conditional_dependent d c v st dep) = run ms (rs_buckets st) /\
    Forall (relates (Conditional c v deps)) ms.
Proof.
  intros Hdep. unfold conditional_dependent. simpl.
  destruct (require_field d dep (because_condition c v) (rs_buckets st)) as [b'|] eqn:E.
  - eapply require_field_trace; [exact Hdep | apply because_condition_free | exact E].
  - eexists [Annotate dep _]. split; [reflexivity|]. relates_all.
Qed.

Lemma conditional_trace (c v : string) (deps : list string) (st : relation_state) :
  exists ms, rs_buckets (conditional d c v deps st) = run ms (rs_buckets st) /\
    Forall (relates (Conditional c v deps)) ms.
Proof.
  unfold conditional. destruct (get_is _ c v).
  - assert (forall xs st, (forall x, x ∈ xs -> x ∈ deps) ->
      exists ms, rs_buckets (fold_left (conditional_dependent d c v) xs st)
                 = run ms (rs_buckets st) /\
        Forall (relates (Conditional c v deps)) ms) as Hfold.
    { intros xs; induction xs as [|x xs IH]; intros st0 Hsub; simpl.
      - exists []. split; [reflexivity | constructor].
      - destruct (conditional_dependent_trace c v deps st0 x) as (ms & E & Hms);
          [apply Hsub; left|].
        destruct (IH (conditional_dependent d c v st0 x)) as (ns & E' & Hns);
          [intros y Hy; apply Hsub; now right|].
        exists (ms ++ ns)%list. split; [now rewrite run_app, <- E | now apply Forall_app]. }
    now apply Hfold.
  - exists []. split; [reflexivity | constructor].
Qed.

Lemma apply_relation_trace (st st' : relation_state) (r : relation) :
  apply_relation d schema st r = Ok st' ->
  exists ms, rs_buckets st' = run ms (rs_buckets st) /\ Forall (relates r) ms.
Proof.
  destruct r as [cids total|t v fields|total comps p|c v deps]; simpl.
  - intros [= <-]. simpl. unfold subset_total.
    destruct (existsb _ _); [|exists []; split; [reflexivity | constructor]].
    destruct (require_field d total (because_subset cids) (rs_buckets st)) as [b'|] eqn:E.
    + simpl. eapply require_field_trace; [|apply because_subset_free | exact E].
      simpl. now left.
    + exists []. split; [reflexivity | constructor].
  - intros [= <-]. simpl. apply conflict_trace.
  - intros H. apply bind_ok in H as (b' & H1 & [= <-]). simpl.
    now apply sum_check_trace with total comps p.
  - intros [= <-]. apply conditional_trace.
Qed.

Lemma for_each_relation_trace (rules : list relation) (st st' : relation_state) :
  for_each (apply_relation d schema) rules st = Ok st' ->
  exists ms, rs_buckets st' = run ms (rs_buckets st) /\
    Forall (fun m => exists r, r ∈ rules /\ relates r m) ms.
Proof.
  set (step := fun a b : relation_state =>
    exists ms, rs_buckets b = run ms (rs_buckets a) /\
      Forall (fun m => exists r, r ∈ rules /\ relates r m) ms).
  intros H. apply (for_each_steps _ step) in H; [exact H| | |].
  - intros a. exists []. split; [reflexivity | constructor].
  - intros a0 b0 c0 (ms & Eb & Hms) (ns & Ec & Hns). exists (ms ++ ns)%list.
    split; [now rewrite run_app, <- Eb | now apply Forall_app].
  - intros r a0 b0 Hr Hstep. apply apply_relation_trace in Hstep as (ms & E & Hms).
    exists ms. split; [exact E|].
    eapply Forall_impl; [exact Hms|]. intros m Hm. now exists r.
Qed.

Lemma apply_relations_trace (rules : list relation) (b : buckets) (st : relation_state) :
  apply_relations T d schema rules b = Ok st ->
  exists ms, rs_buckets st = run ms b /\
    Forall (fun m => exists r, r ∈ rules /\ relates r m) ms.
Proof. unfold apply_relations. intros H. now apply for_each_relation_trace in H. Qed.

Lemma collect_unknown_trace (b : buckets) :
  exists ms, collect_unknown d schema b = run ms b /\
    Forall (fun m => target_kind m = Unknown) ms.
Proof.
  unfold collect_unknown. apply fold_left_trace. intros a x _. unfold add_unknown.
  case_bool_decide.
  - exists []. split; [reflexivity | constructor].
  - eexists [AppendTo Unknown _]. split; [reflexivity|]. repeat constructor.
Qed.
End CompanySteps.

(** ** The company function as a whole *)

Section CompanyWhole.
Variable validator : string -> schema_entry -> pyval -> option string.
Variable T : portco_tables.
Variable d : dataset.
Variable schema : gmap string schema_entry.

Lemma summarize_buckets (st : relation_state) (s : Summary.t) :
  summarize T d st = Ok s -> summary_buckets s = rs_buckets st.
Proof.
  unfold summarize. intros H.
  repeat (apply bind_ok in H as (? & _ & H)).
  injection H as <-. now destruct st as [[] ? ? ?].
Qed.

Lemma validate_with_inv (rules : list relation) (s : Summary.t) :
  validate_with validator T d schema rules = Ok s ->
  exists st rs,
    classify_all validator T d schema = Ok st /\
    apply_relations T d schema rules (cs_buckets st) = Ok rs /\
    summarize T d (on_buckets (collect_unknown d schema) rs) = Ok s.
Proof.
  unfold validate_with. intros H.
  apply bind_ok in H as (st & H1 & H).
  apply bind_ok in H as (rs & H2 & H).
  eauto.
Qed.

(** What the rules leave alone. *)
Lemma relates_error (r : relation) (m : mutation) :
  relates r m -> target_kind m = Error -> exists l, m = AppendTo Error l.
Proof.
  destruct m as [k l|k f|k l|f lv]; simpl; intros H E; subst; try discriminate.
  - eauto.
  - destruct H; discriminate.
  - destruct H as [[?|?] _]; discriminate.
Qed.

Lemma relates_adds_nothing (r : relation) (m : mutation) (k : bucket_kind) :
  k = Valid \/ k = Blank -> relates r m -> target_kind m = k -> adds m = None.
Proof.
  destruct m as [j l|j f|j l|f lv]; simpl; intros Hk H E; subst; try reflexivity.
  - destruct Hk, H; congruence.
  - destruct Hk, H as [[?|?] _]; congruence.
Qed.

Lemma relates_missing (r : relation) (m : mutation) :
  relates r m -> target_kind m = Missing ->
  exists l, m = Replace Missing l /\ compound_id l ∈ targets r /\ off_tier l.
Proof.
  destruct m as [k l|k f|k l|f lv]; simpl; intros H E; subst; try discriminate.
  - destruct H; discriminate.
  - destruct H; discriminate.
  - destruct H as (_ & ? & ?). eauto.
Qed.

(** After the rules and the unknown-id pass, a bucket holds what the rules
    made of it. *)
Lemma collect_unknown_bucket (k : bucket_kind) (b : buckets) :
  k <> Unknown -> bucket k (collect_unknown d schema b) = bucket k b.
Proof.
  intros Hk. destruct (collect_unknown_trace d schema b) as (ms & -> & Hms).
  apply run_other_bucket. eapply Forall_impl; [exact Hms|]. simpl. congruence.
Qed.
End CompanyWhole.

(** ** Conflicts *)

Lemma chars_append (a b : string) : chars (a +:+ b) = (chars a ++ chars b)%list.
Proof. unfold chars. induction a as [|c a IH]; simpl; [reflexivity | now rewrite IH]. Qed.

Lemma has_prefix_app (p s : list ascii) : has_prefix p (p ++ s) = true.
Proof.
  induction p as [|c p IH]; simpl; [reflexivity|].
  rewrite IH. now rewrite bool_decide_eq_true_2.
Qed.

Lemma has_infix_app (p a s : list ascii) : has_infix p (a ++ p ++ s) = true.
Proof.
  induction a as [|c a IH].
  - change ([] ++ p ++ s)%list with (p ++ s)%list.
    destruct p as [|c p]; [now destruct s|].
    change ((c :: p) ++ s)%list with (c :: (p ++ s))%list.
    cbn [has_infix has_prefix]. rewrite has_prefix_app.
    now rewrite bool_decide_eq_true_2.
  - change ((c :: a) ++ p ++ s)%list with (c :: (a ++ p ++ s))%list.
    cbn [has_infix]. rewrite IH. apply orb_true_r.
Qed.

Lemma has_infix_skip (p a s : list ascii) : has_infix p s = true -> has_infix p (a ++ s) = true.
Proof.
  intros H. induction a as [|c a IH]; [exact H|].
  change ((c :: a) ++ s)%list with (c :: (a ++ s))%list.
  cbn [has_infix]. rewrite IH. apply orb_true_r.
Qed.

Lemma has_infix_here (p s : list ascii) : has_infix p (p ++ s) = true.
Proof. apply (has_infix_app p [] s). Qed.

Ltac find_infix :=
  unfold contains; rewrite !chars_append;
  repeat first [ apply has_infix_here | reflexivity | apply has_infix_skip ].

(** The note of a conflict names the two fields and the way out. *)
Lemma conflict_note_names (f t v : string) :
  contains (conflict_note f t v) f = true /\
  contains (conflict_note f t v) t = true /\
  contains (conflict_note f t v) "should be 'no'" = true.
Proof. unfold conflict_note. repeat split; find_infix. Qed.

Section Conflicts.
Variable validator : string -> schema_entry -> pyval -> option string.
Variable T : portco_tables.
Variable d : dataset.
Variable schema : gmap string schema_entry.

Lemma run_conflicted (rules : list relation) (f t v : string) (ms : list mutation)
    (b : buckets) :
  Forall (fun m => exists r, r ∈ rules /\ relates r m) ms ->
  conflicted f t v b -> conflicted f t v (run ms b).
Proof.
  intros Hms (Hv & Hb & He). split; [|split].
  - apply (run_keeps_out Valid); [|exact Hv].
    eapply Forall_impl; [exact Hms|]. intros m (r & _ & Hm) E l Hl.
    assert (adds m = None) as En by (apply (relates_adds_nothing r m Valid); auto).
    congruence.
  - apply (run_keeps_out Blank); [|exact Hb].
    eapply Forall_impl; [exact Hms|]. intros m (r & _ & Hm) E l Hl.
    assert (adds m = None) as En by (apply (relates_adds_nothing r m Blank); auto).
    congruence.
  - apply (run_keeps Error); [|exact He].
    eapply Forall_impl; [exact Hms|]. intros m (r & _ & Hm) E.
    now apply relates_error with r.
Qed.

Lemma conflict_field_conflicted (f t v : string) (fields : list string) (b : buckets) :
  metrics d !! f = Some "yes" ->
  conflicted f t v b \/ f ∈ fields ->
  conflicted f t v (fold_left (conflict_field d t v) fields b).
Proof.
  intros Hyes. revert b. induction fields as [|g fields IH]; intros b H; simpl.
  - destruct H as [H|H]; [exact H | inversion H].
  - destruct H as [H|H].
    + apply IH. left.
      unfold conflict_field. destruct (get_is _ g "yes"); [|exact H].
      apply (run_conflicted [Conflict t v [g]] f t v
               [Without Valid g; Without Blank g; AppendTo Error (conflict_line g t v)]);
        [|exact H].
      repeat (apply Forall_cons; split); try (now apply Forall_nil);
        exists (Conflict t v [g]); (split; [left | simpl; auto]).
    + apply elem_of_cons in H as [<-|H]; [|apply IH; now right].
      apply IH. left.
      unfold conflict_field, get_is. rewrite bool_decide_eq_true_2 by exact Hyes.
      split; [|split]; simpl.
      * rewrite elem_of_ids_without. tauto.
      * rewrite elem_of_ids_without. tauto.
      * unfold append. apply elem_of_app. right. now left.
Qed.

(** The rule list may be any list with the conflict rule in it. *)
Lemma conflict_in_summary (rules : list relation) (t v : string) (fields : list string)
    (f : string) (s : Summary.t) :
  Conflict t v fields ∈ rules -> f ∈ fields ->
  metrics d !! t = Some v -> metrics d !! f = Some "yes" ->
  validate_with validator T d schema rules = Ok s ->
  conflicted f t v (summary_buckets s).
Proof.
  intros Hrule Hf Ht Hyes H.
  apply validate_with_inv in H as (st & rs & _ & Hrel & Hsum).
  apply summarize_buckets in Hsum. rewrite Hsum. clear Hsum s.
  apply list_elem_of_split in Hrule as (pre & post & ->).
  unfold apply_relations in Hrel. rewrite for_each_app in Hrel.
  apply bind_ok in Hrel as (st1 & _ & Hrel). simpl in Hrel.
  apply for_each_relation_trace in Hrel as (ms & E & Hms).
  assert (conflicted f t v (rs_buckets rs)) as (Hv & Hb & He).
  { rewrite E. apply (run_conflicted post); [exact Hms|].
    simpl. unfold conflict, get_is. rewrite bool_decide_eq_true_2 by exact Ht.
    apply conflict_field_conflicted; [exact Hyes | now right]. }
  unfold conflicted. simpl.
  change (valid_lines ?b) with (bucket Valid b).
  change (blank_lines ?b) with (bucket Blank b).
  change (error_lines ?b) with (bucket Error b).
  now rewrite !collect_unknown_bucket by discriminate.
Qed.

(** C6. When the trigger field of a conflict rule of the company function
    has the trigger value and a conflicting field has the value "yes", every
    summary that the function returns has the conflicting field in neither the valid nor the blank
    bucket, and the error bucket holds a record for it with the raw value
    "yes" and a note that names the conflicting field, the trigger field and
    the way out (the conflicting field should be 'no'). *)
Theorem conflict_forces_error (t v : string) (fields : list string) (f : string)
    (s : Summary.t) :
  Conflict t v fields ∈ special_relations ->
  f ∈ fields ->
  metrics d !! t = Some v ->
  metrics d !! f = Some "yes" ->
  validate_metrics_by_company validator T d schema = Ok s ->
  (f ∉ ids (Summary.correct_lines s)) /\
  (f ∉ ids (Summary.blank_lines s)) /\
  exists l, l ∈ Summary.error_lines s /\ compound_id l = f /\
    raw_value l = Some (VStr "yes") /\
    error_notes l = Some (conflict_note f t v) /\
    contains (conflict_note f t v) f = true /\
    contains (conflict_note f t v) t = true /\
    contains (conflict_note f t v) "should be 'no'" = true.
Proof.
  intros Hrule Hf Ht Hyes H.
  destruct (conflict_in_summary special_relations t v fields f s Hrule Hf Ht Hyes H)
    as (Hv & Hb & He).
  split; [exact Hv|]. split; [exact Hb|].
  exists (conflict_line f t v). split; [exact He|].
  repeat split; apply conflict_note_names.
Qed.
End Conflicts.

Ltac in_list := repeat first [ apply list_elem_of_here | apply list_elem_of_further ].

Lemma conflict_forces_error_witness :
  exists s,
    run_company (amended [("sustainability_responsibility_none", "yes", "provided")]) = Ok s /\
    ("sustainability_responsibility_cfo" ∉ ids (Summary.correct_lines s)) /\
    ("sustainability_responsibility_cfo" ∉ ids (Summary.blank_lines s)) /\
    "sustainability_responsibility_cfo" ∈ ids (Summary.error_lines s).
Proof.
  destruct (run_company (amended [("sustainability_responsibility_none", "yes", "provided")]))
    as [s|e] eqn:E; [|vm_compute in E; discriminate E].
  exists s. split; [reflexivity|].
  destruct (conflict_forces_error cerberus example_tables
    (organize (amended [("sustainability_responsibility_none", "yes", "provided")]))
    (SCHEMA_PORTCO example_tables)
    "sustainability_responsibility_none" "yes"
    ["sustainability_responsibility_officer"; "sustainability_responsibility_team";
     "sustainability_responsibility_referent"; "sustainability_responsibility_cfo";
     "sustainability_responsibility_ceo"; "sustainability_responsibility_cso";
     "sustainability_responsibility_management"]
    "sustainability_responsibility_cfo" s) as (Hv & Hb & l & Hl & Hid & _).
  - unfold special_relations. in_list.
  - in_list.
  - vm_compute. reflexivity.
  - vm_compute. reflexivity.
  - exact E.
  - split; [exact Hv|]. split; [exact Hb|].
    apply list_elem_of_fmap. exists l. split; [now rewrite Hid | exact Hl].
Defined.

(** ** Counts of the summary *)

Lemma count_if_error_in (tier : list string) (xs : list line) :
  count_if (error_in tier) xs = Ok (length (filter (fun e => compound_id e ∈ tier) xs)).
Proof.
  induction xs as [|x xs IH]; [reflexivity|].
  simpl. rewrite IH. simpl. rewrite filter_cons. unfold in_list.
  case_bool_decide; case_decide; try tauto; reflexivity.
Qed.

Lemma level_in_off_tier (levels : list string) (l : line) :
  (forall s, s ∈ levels -> s ∈ tier_names) -> off_tier l -> level_in levels l = Ok false.
Proof.
  intros Hsub (s & E & Hs). unfold level_in, in_list. rewrite E.
  rewrite bool_decide_eq_false_2; [reflexivity|]. intros Hin. apply Hs, Hsub, Hin.
Qed.

Lemma count_if_off_tier (levels : list string) (xs : list line) :
  (forall s, s ∈ levels -> s ∈ tier_names) -> Forall off_tier xs ->
  count_if (level_in levels) xs = Ok O.
Proof.
  intros Hsub. induction 1 as [|x xs Hx _ IH]; [reflexivity|].
  simpl. rewrite (level_in_off_tier levels x Hsub Hx). simpl. now rewrite IH.
Qed.

Ltac tier_subset :=
  intros ?; unfold tier_names; rewrite !elem_of_cons, !elem_of_nil; tauto.

Section CompanyCounts.
Variable validator : string -> schema_entry -> pyval -> option string.
Variable T : portco_tables.
Variable d : dataset.
Variable schema : gmap string schema_entry.

(** No record of the missing bucket carries one of the lower-case tier
    names that [missing_counts] looks for. *)
Lemma missing_off_tier (rules : list relation) (s : Summary.t) :
  validate_with validator T d schema rules = Ok s ->
  Forall off_tier (Summary.missing_metrics s).
Proof.
  intros H. apply validate_with_inv in H as (st & rs & Hcls & Hrel & Hsum).
  apply summarize_buckets in Hsum.
  change (Summary.missing_metrics s) with (bucket Missing (summary_buckets s)).
  rewrite Hsum. simpl. change (missing_metrics ?b) with (bucket Missing b).
  rewrite collect_unknown_bucket by discriminate.
  apply classify_all_trace in Hcls as (ms1 & E1 & Hms1).
  apply apply_relations_trace in Hrel as (ms2 & E2 & Hms2).
  rewrite E2, E1.
  apply run_Forall; [discriminate| |apply run_Forall; [discriminate| |constructor]].
  - eapply Forall_impl; [exact Hms2|]. intros m (r & _ & Hm) Ek l Hl.
    apply relates_missing in Hm as (l' & -> & _ & Hoff); [|exact Ek].
    injection Hl as <-. exact Hoff.
  - eapply Forall_impl; [exact Hms1|]. intros m (cid & _ & k & l' & -> & _ & _ & _ & Hoff) Ek l Hl.
    injection Hl as <-. simpl in Ek. now apply Hoff.
Qed.

Lemma summarize_counts (st : relation_state) (s : Summary.t) :
  summarize T d st = Ok s ->
  Summary.invalid_lines s =
    (length (error_lines (rs_buckets st)) + length (missing_metrics (rs_buckets st)))%nat /\
  missing_count (rs_buckets st) ["minimum"] (minimum st) = Ok (Summary.missing_minimum s) /\
  missing_count (rs_buckets st) ["minimum"; "intermediate"] (intermediate st)
    = Ok (Summary.missing_intermediate s) /\
  missing_count (rs_buckets st) ["minimum"; "intermediate"; "full"] (full st)
    = Ok (Summary.missing_full s).
Proof.
  unfold summarize. intros H.
  do 4 (apply bind_ok in H as (? & _ & H)).
  apply bind_ok in H as (n1 & H1 & H).
  apply bind_ok in H as (n2 & H2 & H).
  apply bind_ok in H as (n3 & H3 & H).
  injection H as <-. simpl. auto.
Qed.

Lemma missing_count_errors_only (b : buckets) (levels tier : list string) (n : nat) :
  (forall s, s ∈ levels -> s ∈ tier_names) -> Forall off_tier (missing_metrics b) ->
  missing_count b levels tier = Ok n ->
  n = length (filter (fun e => compound_id e ∈ tier) (error_lines b)).
Proof.
  intros Hsub Hoff. unfold missing_count.
  rewrite (count_if_off_tier levels _ Hsub Hoff), count_if_error_in. simpl.
  now intros [= <-].
Qed.

(** C3. The three missing counts of a company summary count error lines
    only: each is the number of error records whose id is in the (extended)
    list of its tier, and no record of the missing bucket is ever counted, so
    that without error lines the three counts are 0 whatever is missing.  The
    source compares the requirement level of a missing record with
    "minimum", "intermediate" and "full", while the records carry "Minimum",
    "Intermediate", "Full" or a sentence. *)
Theorem missing_counts_skip_missing (s : Summary.t) :
  validate_metrics_by_company validator T d schema = Ok s ->
  (exists minimum intermediate full : list string,
     Summary.missing_minimum s =
       length (filter (fun e => compound_id e ∈ minimum) (Summary.error_lines s)) /\
     Summary.missing_intermediate s =
       length (filter (fun e => compound_id e ∈ intermediate) (Summary.error_lines s)) /\
     Summary.missing_full s =
       length (filter (fun e => compound_id e ∈ full) (Summary.error_lines s))) /\
  (Summary.error_lines s = [] ->
     Summary.missing_minimum s = O /\ Summary.missing_intermediate s = O /\
     Summary.missing_full s = O).
Proof.
  intros H. pose proof (missing_off_tier special_relations s H) as Hoff.
  apply validate_with_inv in H as (st & rs & _ & _ & Hsum).
  pose proof (summarize_buckets T d _ s Hsum) as Hb.
  apply summarize_counts in Hsum as (_ & H1 & H2 & H3).
  set (b := rs_buckets (on_buckets (collect_unknown d schema) rs)) in *.
  assert (Summary.error_lines s = error_lines b) as He by (now rewrite <- Hb).
  assert (Summary.missing_metrics s = missing_metrics b) as Hm by (now rewrite <- Hb).
  rewrite Hm in Hoff.
  apply missing_count_errors_only in H1; [|tier_subset | exact Hoff].
  apply missing_count_errors_only in H2; [|tier_subset | exact Hoff].
  apply missing_count_errors_only in H3; [|tier_subset | exact Hoff].
  rewrite He. split.
  - eexists _, _, _. split; [exact H1|]. split; [exact H2 | exact H3].
  - intros Hnil. rewrite H1, H2, H3, Hnil. auto.
Qed.
End CompanyCounts.

Lemma missing_counts_skip_missing_witness :
  exists s,
    run_company [("company_name", "Acme", "provided"); ("currency", "EUR", "provided")] = Ok s /\
    "total_ftes_end_of_report_year" ∈ ids (Summary.missing_metrics s) /\
    Summary.missing_minimum s = O /\ Summary.missing_intermediate s = O /\
    Summary.missing_full s = O.
Proof.
  destruct (run_company [("company_name", "Acme", "provided"); ("currency", "EUR", "provided")])
    as [s|e] eqn:E; [|vm_compute in E; discriminate E].
  exists s. split; [reflexivity|].
  destruct (missing_counts_skip_missing cerberus example_tables
    (organize [("company_name", "Acme", "provided"); ("currency", "EUR", "provided")])
    (SCHEMA_PORTCO example_tables) s E) as (_ & Hzero).
  vm_compute in E. injection E as <-.
  split; [simpl; in_list|]. apply Hzero. reflexivity.
Defined.

(** ** Conditional requirements *)

Lemma isolated_split (rules : list relation) (c v : string) (deps : list string)
    (dep : string) :
  isolated rules = true -> Conditional c v deps ∈ rules -> dep ∈ deps ->
  exists pre post, rules = (pre ++ Conditional c v deps :: post)%list /\
    Forall (fun r => dep ∉ targets r) post.
Proof.
  induction rules as [|r rules IH]; intros Hiso Hin Hdep; [inversion Hin|].
  simpl in Hiso. apply andb_true_iff in Hiso as [Hr Hiso].
  apply elem_of_cons in Hin as [<-|Hin].
  - exists [], rules. split; [reflexivity|].
    rewrite forallb_forall in Hr. apply list_elem_of_In in Hdep.
    specialize (Hr dep Hdep). rewrite forallb_forall in Hr.
    apply Forall_forall. intros r' Hr'. apply list_elem_of_In in Hr'.
    specialize (Hr r' Hr'). apply negb_true_iff in Hr.
    unfold in_list in Hr. now apply bool_decide_eq_false in Hr.
  - destruct (IH Hiso Hin Hdep) as (pre & post & -> & Hpost).
    exists (r :: pre), post. split; [reflexivity | exact Hpost].
Qed.

(** An id stays in a bucket through a run that only appends to the bucket
    or replaces in it. *)
Lemma run_keeps_id (k : bucket_kind) (x : string) (ms : list mutation) (b : buckets) :
  Forall (fun m => target_kind m = k -> exists l, m = AppendTo k l \/ m = Replace k l) ms ->
  x ∈ ids (bucket k b) -> x ∈ ids (bucket k (run ms b)).
Proof.
  revert b; induction ms as [|m ms IH]; intros b H Hx; [exact Hx|].
  apply Forall_cons in H as [Hm H]. simpl. apply IH; [exact H|].
  destruct (decide (target_kind m = k)) as [E|E]; [|now rewrite mutate_other_bucket].
  destruct (Hm E) as (l & [->| ->]); simpl; rewrite bucket_update_eq, ids_append, elem_of_app.
  - now left.
  - destruct (decide (x = compound_id l)) as [->|Hne].
    + right. now left.
    + left. now apply elem_of_ids_without.
Qed.

Section Conditionals.
Variable validator : string -> schema_entry -> pyval -> option string.
Variable T : portco_tables.
Variable d : dataset.
Variable schema : gmap string schema_entry.

Lemma conditional_dependent_required (c v : string) (st : relation_state) (dep : string)
    (b' : buckets) :
  require_field d dep (because_condition c v) (rs_buckets st) = Some b' ->
  rs_buckets (conditional_dependent d c v st dep) = b'.
Proof. intros E. unfold conditional_dependent. simpl. now rewrite E. Qed.

(** A dependent other than [dep] leaves the missing records about [dep]. *)
Lemma conditional_dependent_other (c v : string) (st : relation_state) (x dep : string) :
  x <> dep ->
  about dep (missing_metrics (rs_buckets (conditional_dependent d c v st x)))
  = about dep (missing_metrics (rs_buckets st)).
Proof.
  intros Hne.
  destruct (conditional_dependent_trace d c v [x] st x) as (ms & -> & Hms); [left|].
  apply (run_about Missing); [discriminate|].
  eapply Forall_impl; [exact Hms|]. intros m Hm Ek.
  apply relates_missing in Hm as (l & -> & Hl & _); [|exact Ek].
  simpl in *. apply list_elem_of_singleton in Hl. congruence.
Qed.

Lemma conditional_absent (c v dep : string) (deps : list string) (st : relation_state) :
  metrics d !! dep = None ->
  about dep (missing_metrics (rs_buckets st)) = [absent_dependent_line c v dep] \/ dep ∈ deps ->
  about dep (missing_metrics
    (rs_buckets (fold_left (conditional_dependent d c v) deps st)))
  = [absent_dependent_line c v dep].
Proof.
  intros Hnone. revert st. induction deps as [|x deps IH]; intros st H; simpl.
  - destruct H as [H|H]; [exact H | inversion H].
  - destruct (decide (x = dep)) as [->|Hne].
    + apply IH. left.
      erewrite conditional_dependent_required;
        [|unfold require_field; rewrite Hnone; reflexivity].
      simpl. rewrite about_append, about_without.
      rewrite bool_decide_eq_true_2 by reflexivity.
      unfold about. rewrite filter_cons. now case_decide.
    + apply IH. destruct H as [H|H].
      * left. now rewrite conditional_dependent_other.
      * right. apply elem_of_cons in H as [->|H]; [now destruct Hne | exact H].
Qed.

Lemma conditional_in_summary (rules : list relation) (c v : string) (deps : list string)
    (dep : string) (s : Summary.t) :
  isolated rules = true -> Conditional c v deps ∈ rules -> dep ∈ deps ->
  metrics d !! c = Some v -> metrics d !! dep = None ->
  validate_with validator T d schema rules = Ok s ->
  about dep (Summary.missing_metrics s) = [absent_dependent_line c v dep].
Proof.
  intros Hiso Hrule Hdep Hc Hnone H.
  apply validate_with_inv in H as (st & rs & _ & Hrel & Hsum).
  apply summarize_buckets in Hsum.
  change (Summary.missing_metrics s) with (bucket Missing (summary_buckets s)).
  rewrite Hsum. simpl. change (missing_metrics ?b) with (bucket Missing b).
  rewrite collect_unknown_bucket by discriminate.
  destruct (isolated_split rules c v deps dep Hiso Hrule Hdep) as (pre & post & -> & Hpost).
  unfold apply_relations in Hrel. rewrite for_each_app in Hrel.
  apply bind_ok in Hrel as (st1 & _ & Hrel). simpl in Hrel.
  apply for_each_relation_trace in Hrel as (ms & -> & Hms).
  rewrite (run_about Missing); [|discriminate|].
  - unfold conditional, get_is. rewrite bool_decide_eq_true_2 by exact Hc.
    apply conditional_absent; [exact Hnone | now right].
  - eapply Forall_impl; [exact Hms|]. intros m (r & Hr & Hm) Ek.
    apply relates_missing in Hm as (l & -> & Hl & _); [|exact Ek].
    simpl. intros <-. rewrite Forall_forall in Hpost. now apply (Hpost r).
Qed.

(** C5, as amended.  When the condition of a conditional requirement of the
    company function holds and a dependent is absent from the import file,
    the missing bucket of the summary holds exactly one record about the
    dependent: its requirement level is the sentence "Strongly recommended
    because '<condition id>' is '<condition value>'", which names the
    condition, and its reason is "Not in import file at all". *)
Theorem absent_dependent_is_missing (c v : string) (deps : list string) (dep : string)
    (s : Summary.t) :
  Conditional c v deps ∈ special_relations ->
  dep ∈ deps ->
  metrics d !! c = Some v ->
  metrics d !! dep = None ->
  validate_metrics_by_company validator T d schema = Ok s ->
  about dep (Summary.missing_metrics s) =
    [Line dep None None (Some (LevelStr (because_condition c v)))
       (Some "Not in import file at all") None None] /\
  contains (because_condition c v) c = true.
Proof.
  intros Hrule Hdep Hc Hnone H. split.
  - now apply (conditional_in_summary special_relations c v deps).
  - unfold because_condition. find_infix.
Qed.
End Conditionals.

Lemma absent_dependent_is_missing_witness :
  exists s,
    run_company (without_row "percentage_turnover_tobacco_activities"
                   (amended [("tobacco_activities", "yes", "provided")])) = Ok s /\
    about "percentage_turnover_tobacco_activities" (Summary.missing_metrics s) =
      [Line "percentage_turnover_tobacco_activities" None None
         (Some (LevelStr "Strongly recommended because 'tobacco_activities' is 'yes'"))
         (Some "Not in import file at all") None None].
Proof.
  destruct (run_company (without_row "percentage_turnover_tobacco_activities"
                           (amended [("tobacco_activities", "yes", "provided")])))
    as [s|e] eqn:E; [|vm_compute in E; discriminate E].
  exists s. split; [reflexivity|].
  apply (absent_dependent_is_missing cerberus example_tables
    (organize (without_row "percentage_turnover_tobacco_activities"
                 (amended [("tobacco_activities", "yes", "provided")])))
    (SCHEMA_PORTCO example_tables)
    "tobacco_activities" "yes" ["percentage_turnover_tobacco_activities"]
    "percentage_turnover_tobacco_activities" s).
  - unfold special_relations. in_list.
  - in_list.
  - vm_compute. reflexivity.
  - vm_compute. reflexivity.
  - exact E.
Defined.

(** The claim of C5 as it stands asks for a reason that cites the condition:
    in this file tobacco_activities is "yes" and the dependent is absent, and
    no record of the missing bucket about the dependent has a ["reason"]
    that mentions tobacco_activities. *)
Lemma reason_does_not_cite_condition :
  exists s,
    run_company (without_row "percentage_turnover_tobacco_activities"
                   (amended [("tobacco_activities", "yes", "provided")])) = Ok s /\
    ~ exists l why,
        l ∈ Summary.missing_metrics s /\
        compound_id l = "percentage_turnover_tobacco_activities" /\
        reason l = Some why /\ contains why "tobacco_activities" = true.
Proof.
  eexists. split; [vm_compute; reflexivity|].
  intros (l & why & Hl & Hid & Hwhy & Hcites). simpl in Hl.
  apply list_elem_of_singleton in Hl. subst l. simpl in Hwhy.
  injection Hwhy as <-. vm_compute in Hcites. discriminate Hcites.
Qed.

(** ** One id in two buckets *)

Section TwoBuckets.
Variable validator : string -> schema_entry -> pyval -> option string.
Variable T : portco_tables.
Variable d : dataset.
Variable schema : gmap string schema_entry.

Lemma classify_blank_provided (st : classify_state) (dep : string) :
  metrics d !! dep = Some "" -> status d !! dep = Some "provided" ->
  classify validator T d schema st dep =
    Ok (ClassifyState
          (set_error (append (error_line dep "" "Value is blank but marked as 'provided'." None))
             (cs_buckets st))
          (cs_level st)).
Proof. intros Hv Hs. unfold classify. rewrite Hv, Hs. reflexivity. Qed.

Lemma classifies_appends (k : bucket_kind) (cid : string) (m : mutation) :
  classifies cid m -> target_kind m = k -> exists l, m = AppendTo k l \/ m = Replace k l.
Proof. intros (j & l & -> & _) <-. exists l. now left. Qed.

Lemma relates_appends (k : bucket_kind) (r : relation) (m : mutation) :
  k = Error \/ k = Missing -> relates r m -> target_kind m = k ->
  exists l, m = AppendTo k l \/ m = Replace k l.
Proof.
  intros Hk Hm Ek. destruct Hk as [->| ->].
  - apply relates_error in Hm as (l & ->); [|exact Ek]. exists l. now left.
  - apply relates_missing in Hm as (l & -> & _); [|exact Ek]. exists l. now right.
Qed.

Lemma blank_provided_is_error (dep : string) (st : classify_state) :
  dep ∈ ALL_METRICS T ->
  metrics d !! dep = Some "" -> status d !! dep = Some "provided" ->
  classify_all validator T d schema = Ok st ->
  dep ∈ ids (error_lines (cs_buckets st)).
Proof.
  intros Hall Hv Hs H. unfold classify_all in H.
  apply list_elem_of_split in Hall as (l1 & l2 & Hall). rewrite Hall in H.
  rewrite for_each_app in H. apply bind_ok in H as (st1 & _ & H). simpl in H.
  rewrite (classify_blank_provided st1 dep Hv Hs) in H. simpl in H.
  assert (exists ms, cs_buckets st = run ms
            (set_error (append (error_line dep "" "Value is blank but marked as 'provided'." None))
               (cs_buckets st1)) /\
          Forall (fun m => exists cid, classifies cid m) ms) as (ms & -> & Hms).
  { set (step := fun a b : classify_state =>
      exists ms, cs_buckets b = run ms (cs_buckets a) /\
        Forall (fun m => exists cid, classifies cid m) ms).
    apply (for_each_steps _ step) in H; [exact H| | |].
    - intros a. exists []. split; [reflexivity | constructor].
    - intros a b c (ms & Eb & Hms) (ns & Ec & Hns). exists (ms ++ ns)%list.
      split; [now rewrite run_app, <- Eb | now apply Forall_app].
    - intros cid a b _ Hstep. apply classify_trace in Hstep as (ms & E & Hms).
      exists ms. split; [exact E|].
      eapply Forall_impl; [exact Hms|]. intros m Hm. now exists cid. }
  apply (run_keeps_id Error).
  - eapply Forall_impl; [exact Hms|]. intros m (cid & Hm). now apply classifies_appends with cid.
  - simpl. rewrite ids_append, elem_of_app. right. now left.
Qed.

Lemma conditional_blank (c v dep : string) (deps : list string) (st : relation_state) :
  metrics d !! dep = Some "" -> status d !! dep = Some "provided" ->
  dep ∈ ids (missing_metrics (rs_buckets st)) \/ dep ∈ deps ->
  dep ∈ ids (missing_metrics (rs_buckets (fold_left (conditional_dependent d c v) deps st))).
Proof.
  intros Hv Hs. revert st. induction deps as [|x deps IH]; intros st H; simpl.
  - destruct H as [H|H]; [exact H | inversion H].
  - apply IH. destruct (decide (x = dep)) as [->|Hne].
    + left. erewrite conditional_dependent_required;
        [|unfold require_field; rewrite Hv, Hs; reflexivity].
      simpl. rewrite ids_append, elem_of_app. right. now left.
    + destruct H as [H|H].
      * left. destruct (conditional_dependent_trace d c v [x] st x) as (ms & -> & Hms); [left|].
        apply (run_keeps_id Missing); [|exact H].
        eapply Forall_impl; [exact Hms|]. intros m Hm.
        apply relates_appends with (Conditional c v [x]); auto.
      * right. apply elem_of_cons in H as [->|H]; [now destruct Hne | exact H].
Qed.

(** C1, on the code.  A dependent of a triggered conditional requirement
    that the import file has with an empty value and the status "provided"
    ends in two buckets at once: the classification files it in the error
    bucket, and the rule adds it to the missing bucket after filtering the
    valid and the blank bucket only. *)
Theorem blank_dependent_in_two_buckets (c v : string) (deps : list string) (dep : string)
    (s : Summary.t) :
  Conditional c v deps ∈ special_relations ->
  dep ∈ deps ->
  dep ∈ ALL_METRICS T ->
  metrics d !! c = Some v ->
  metrics d !! dep = Some "" ->
  status d !! dep = Some "provided" ->
  validate_metrics_by_company validator T d schema = Ok s ->
  dep ∈ ids (Summary.error_lines s) /\ dep ∈ ids (Summary.missing_metrics s).
Proof.
  intros Hrule Hdep Hall Hc Hv Hs H.
  apply validate_with_inv in H as (st & rs & Hcls & Hrel & Hsum).
  apply summarize_buckets in Hsum.
  change (Summary.error_lines s) with (bucket Error (summary_buckets s)).
  change (Summary.missing_metrics s) with (bucket Missing (summary_buckets s)).
  rewrite Hsum. simpl.
  change (error_lines ?b) with (bucket Error b).
  change (missing_metrics ?b) with (bucket Missing b).
  rewrite !collect_unknown_bucket by discriminate.
  pose proof (blank_provided_is_error dep st Hall Hv Hs Hcls) as Herr.
  split.
  - apply apply_relations_trace in Hrel as (ms & -> & Hms).
    apply (run_keeps_id Error); [|exact Herr].
    eapply Forall_impl; [exact Hms|]. intros m (r & _ & Hm).
    apply relates_appends with r; auto.
  - apply list_elem_of_split in Hrule as (pre & post & Hrules).
    unfold apply_relations in Hrel. rewrite Hrules, for_each_app in Hrel.
    apply bind_ok in Hrel as (st1 & _ & Hrel). simpl in Hrel.
    apply for_each_relation_trace in Hrel as (ms & -> & Hms).
    apply (run_keeps_id Missing).
    + eapply Forall_impl; [exact Hms|]. intros m (r & _ & Hm).
      apply relates_appends with r; auto.
    + unfold conditional, get_is. rewrite bool_decide_eq_true_2 by exact Hc.
      apply conditional_blank; [exact Hv | exact Hs | now right].
Qed.
End TwoBuckets.

Lemma blank_dependent_in_two_buckets_witness :
  exists s,
    run_company (amended [("tobacco_activities", "yes", "provided");
                          ("percentage_turnover_tobacco_activities", "", "provided")]) = Ok s /\
    "percentage_turnover_tobacco_activities" ∈ ids (Summary.error_lines s) /\
    "percentage_turnover_tobacco_activities" ∈ ids (Summary.missing_metrics s).
Proof.
  destruct (run_company (amended [("tobacco_activities", "yes", "provided");
                                  ("percentage_turnover_tobacco_activities", "", "provided")]))
    as [s|e] eqn:E; [|vm_compute in E; discriminate E].
  exists s. split; [reflexivity|].
  apply (blank_dependent_in_two_buckets cerberus example_tables
    (organize (amended [("tobacco_activities", "yes", "provided");
                        ("percentage_turnover_tobacco_activities", "", "provided")]))
    (SCHEMA_PORTCO example_tables)
    "tobacco_activities" "yes" ["percentage_turnover_tobacco_activities"]
    "percentage_turnover_tobacco_activities" s).
  - unfold special_relations. in_list.
  - in_list.
  - simpl. in_list.
  - vm_compute. reflexivity.
  - vm_compute. reflexivity.
  - vm_compute. reflexivity.
  - exact E.
Defined.

(** An id can also end in no bucket at all: a metric of no tier that is
    marked not available, in a file with an FTE count, is appended nowhere. *)
Example exempt_untiered_metric_is_dropped :
  exists s,
    run_company (amended [("listed_ticker", "", "not_available")]) = Ok s /\
    "listed_ticker" ∈ ALL_METRICS example_tables /\
    Forall (fun k => "listed_ticker" ∉ ids (bucket k (summary_buckets s)))
      [Valid; Error; Blank; Missing; Recommended].
Proof.
  eexists. split; [vm_compute; reflexivity|]. split; [simpl; in_list|].
  repeat (apply Forall_cons; split); try (now apply Forall_nil); simpl;
    rewrite ?elem_of_cons, ?elem_of_nil; intuition discriminate.
Qed.

(** ** Exceptions that escape *)

Lemma get_typed_value_text (schema : gmap string schema_entry) (value cid : string) :
  isnumeric value = false -> py_float value = None ->
  get_typed_value schema value cid = Ok (VStr value).
Proof.
  intros Hn Hf. unfold get_typed_value, is_float. rewrite Hn, Hf.
  now rewrite !andb_false_r.
Qed.

Section Escapes.
Variable validator : string -> schema_entry -> pyval -> option string.
Variable T : portco_tables.
Variable d : dataset.
Variable schema : gmap string schema_entry.

Lemma classify_text_fte (st : classify_state) (cid raw fte : string) :
  metrics d !! cid = Some raw ->
  exempt (default "" (status d !! cid)) = true ->
  metrics d !! FTE = Some fte ->
  fte <> "" -> isnumeric fte = false -> py_float fte = None ->
  cid ∉ MINIMUM_METRICS T ->
  cid ∈ INTERMEDIATE_METRICS T \/ cid ∈ FULL_METRICS T ->
  classify validator T d schema st cid = Raise TypeError.
Proof.
  intros Hraw Hex Hfte Hne Hnum Hflo Hmin Htier.
  unfold classify. rewrite Hraw, Hex.
  unfold classify_exempt, item. rewrite Hfte. simpl.
  unfold str_eqb at 1. rewrite bool_decide_eq_false_2 by exact Hne. simpl.
  rewrite (get_typed_value_text _ fte FTE Hnum Hflo). simpl.
  unfold tier_level, in_list.
  rewrite (bool_decide_eq_false_2 _ Hmin).
  destruct (bool_decide (cid ∈ INTERMEDIATE_METRICS T)) eqn:Ei; [reflexivity|].
  apply bool_decide_eq_false in Ei.
  destruct Htier as [Hi|Hf]; [now destruct Ei|].
  now rewrite (bool_decide_eq_true_2 _ Hf).
Qed.

(** C2, on the code.  The two keys that the function reads unconditionally
    are present, and still the call raises: the FTE count is a text that is
    no number, it is compared with 15 or 250 for a metric of the
    intermediate or full tier that is marked not applicable or not
    available, and the comparison of a [str] with an [int] is a
    [TypeError] that nothing catches. *)
Theorem text_fte_count_raises (cid raw fte : string) :
  metrics d !! FTE = Some fte ->
  is_Some (metrics d !! "currency") ->
  cid ∈ ALL_METRICS T ->
  metrics d !! cid = Some raw ->
  exempt (default "" (status d !! cid)) = true ->
  fte <> "" -> isnumeric fte = false -> py_float fte = None ->
  cid ∉ MINIMUM_METRICS T ->
  cid ∈ INTERMEDIATE_METRICS T \/ cid ∈ FULL_METRICS T ->
  returns (validate_metrics_by_company validator T d schema) = false.
Proof.
  intros Hfte _ Hall Hraw Hex Hne Hnum Hflo Hmin Htier.
  unfold validate_metrics_by_company, validate_with, classify_all.
  pose proof (for_each_raises (classify validator T d schema) (ALL_METRICS T) cid Hall) as Hloop.
  specialize (Hloop (fun st => f_equal returns
    (classify_text_fte st cid raw fte Hraw Hex Hfte Hne Hnum Hflo Hmin Htier))
    (ClassifyState no_lines None)).
  destruct (for_each _ _ _); [discriminate Hloop | reflexivity].
Qed.
End Escapes.

Lemma text_fte_count_raises_witness :
  run_company (amended [("total_ftes_end_of_report_year", "abc", "provided");
                        ("total_ghg_emissions", "", "not_available")]) = Raise TypeError /\
  returns (run_company (amended [("total_ftes_end_of_report_year", "abc", "provided");
                                 ("total_ghg_emissions", "", "not_available")])) = false.
Proof.
  split; [vm_compute; reflexivity|].
  apply (text_fte_count_raises cerberus example_tables
    (organize (amended [("total_ftes_end_of_report_year", "abc", "provided");
                        ("total_ghg_emissions", "", "not_available")]))
    (SCHEMA_PORTCO example_tables) "total_ghg_emissions" "" "abc").
  - vm_compute. reflexivity.
  - vm_compute. eauto.
  - simpl. in_list.
  - vm_compute. reflexivity.
  - vm_compute. reflexivity.
  - discriminate.
  - vm_compute. reflexivity.
  - vm_compute. reflexivity.
  - simpl. rewrite !elem_of_cons, elem_of_nil. intros [?|[?|[?|[?|[?|[?|[]]]]]]]; discriminate.
  - right. simpl. in_list.
Defined.

(** Two more ways out of the function with both keys present: a status
    that is none of the three known ones on the first metric of the universe
    reads the local [level] before any assignment, and an integer metric
    whose value is a superscript digit fails in [int()]. *)
Example unknown_status_reads_unbound_level :
  run_company (amended [("company_name", "Acme", "draft")])
    = Raise (UnboundLocalError "level").
Proof. vm_compute. reflexivity. Qed.

Example superscript_count_raises :
  run_gp [("gp_name", "Acme", "provided");
          ("number_of_data_breaches", String (ascii_of_nat 178) "", "provided")]
    = Raise ValueError.
Proof. vm_compute. reflexivity. Qed.

(** Without the FTE row the first exempted metric raises a [KeyError]. *)
Example exempt_without_fte_row_raises :
  run_company (without_row "total_ftes_end_of_report_year"
                 (amended [("total_ghg_emissions", "", "not_applicable")]))
    = Raise (KeyError "total_ftes_end_of_report_year").
Proof. vm_compute. reflexivity. Qed.

(** ** Type coercion *)

Lemma numeric_not_space (c : ascii) : is_numeric_char c = true -> is_space_char c = false.
Proof. destruct c as [[] [] [] [] [] [] [] []]; vm_compute; congruence. Qed.

Lemma numeric_not_sign (c : ascii) :
  is_numeric_char c = true -> c <> "-"%char /\ c <> "+"%char /\ c <> "_"%char.
Proof. destruct c as [[] [] [] [] [] [] [] []]; vm_compute; intuition congruence. Qed.

Lemma lstrip_numeric (cs : list ascii) :
  forallb is_numeric_char cs = true -> lstrip cs = cs.
Proof.
  destruct cs as [|c cs]; [reflexivity|]. simpl. intros H.
  apply andb_true_iff in H as [Hc _]. now rewrite (numeric_not_space c Hc).
Qed.

Lemma forallb_rev {A} (f : A -> bool) (xs : list A) :
  forallb f xs = true -> forallb f (rev xs) = true.
Proof.
  rewrite !forallb_forall. intros H x Hx. apply H. now apply in_rev.
Qed.

Lemma strip_numeric (cs : list ascii) :
  forallb is_numeric_char cs = true -> strip cs = cs.
Proof.
  intros H. unfold strip. rewrite (lstrip_numeric cs H).
  rewrite (lstrip_numeric (rev cs)) by now apply forallb_rev.
  apply rev_involutive.
Qed.

Lemma split_sign_numeric (cs : list ascii) :
  forallb is_numeric_char cs = true -> split_sign cs = (false, cs).
Proof.
  destruct cs as [|c cs]; [reflexivity|]. simpl. intros H.
  apply andb_true_iff in H as [Hc _].
  destruct (numeric_not_sign c Hc) as (Hm & Hp & _).
  now rewrite !bool_decide_eq_false_2.
Qed.

Lemma digitpart_not_decimal (cs : list ascii) (after_digit : bool) :
  forallb is_numeric_char cs = true -> forallb is_decimal_char cs = false ->
  digitpart cs after_digit = None.
Proof.
  revert after_digit. induction cs as [|c cs IH]; intros after_digit Hn Hd; [discriminate|].
  simpl in *. apply andb_true_iff in Hn as [Hc Hn].
  destruct (is_decimal_char c) eqn:E.
  - simpl in Hd. now rewrite IH.
  - destruct (numeric_not_sign c Hc) as (_ & _ & Hu).
    now rewrite bool_decide_eq_false_2.
Qed.

(** C9, on the code.  For a metric declared as integer, a value that
    [isnumeric()] accepts and that has a character with no decimal value (a
    superscript digit or a vulgar fraction) makes [get_typed_value] raise:
    [int()] rejects it with a [ValueError], and only the float path is
    guarded by a [try]. *)
Theorem numeric_text_raises (schema : gmap string schema_entry) (value compound_id : string) :
  declared_type schema compound_id = Some "integer" ->
  isnumeric value = true ->
  forallb is_decimal_char (chars value) = false ->
  get_typed_value schema value compound_id = Raise ValueError.
Proof.
  intros Hty Hnum Hdec. unfold get_typed_value.
  rewrite Hnum, (bool_decide_eq_true_2 _ Hty). simpl.
  unfold isnumeric in Hnum. apply andb_true_iff in Hnum as [_ Hnum].
  unfold py_int. rewrite (strip_numeric _ Hnum), (split_sign_numeric _ Hnum).
  now rewrite (digitpart_not_decimal _ false Hnum Hdec).
Qed.

Lemma numeric_text_raises_witness :
  get_typed_value (SCHEMA_GP []) (String (ascii_of_nat 189) "") "number_of_esg_incidents"
    = Raise ValueError.
Proof.
  apply numeric_text_raises.
  - vm_compute. reflexivity.
  - vm_compute. reflexivity.
  - vm_compute. reflexivity.
Defined.

(** What does hold of [get_typed_value]: digits under an integer
    declaration give the int, a float literal under a float declaration
    gives the float, and a text that is neither numeric nor a float literal
    is handed back, whatever the declaration. *)
Lemma digitpart_digits (cs : list ascii) (after_digit : bool) :
  forallb is_decimal_char cs = true -> cs <> [] \/ after_digit = true ->
  digitpart cs after_digit = Some cs.
Proof.
  revert after_digit. induction cs as [|c cs IH]; intros after_digit Hd Hne; simpl.
  - destruct Hne as [Hne| ->]; [now destruct Hne | reflexivity].
  - simpl in Hd. apply andb_true_iff in Hd as [Hc Hd]. rewrite Hc.
    rewrite IH; [reflexivity | exact Hd | now right].
Qed.

Lemma decimal_is_numeric (cs : list ascii) :
  forallb is_decimal_char cs = true -> forallb is_numeric_char cs = true.
Proof.
  rewrite !forallb_forall. intros H c Hc. unfold is_numeric_char. now rewrite (H c Hc).
Qed.

Lemma get_typed_value_digits (schema : gmap string schema_entry) (value compound_id : string) :
  declared_type schema compound_id = Some "integer" ->
  value <> "" -> forallb is_decimal_char (chars value) = true ->
  get_typed_value schema value compound_id = Ok (VInt (digits_value (chars value))).
Proof.
  intros Hty Hne Hdec. pose proof (decimal_is_numeric _ Hdec) as Hnum.
  unfold get_typed_value, isnumeric, str_eqb.
  rewrite Hnum, (bool_decide_eq_true_2 _ Hty), (bool_decide_eq_false_2 _ Hne). simpl.
  unfold py_int. rewrite (strip_numeric _ Hnum), (split_sign_numeric _ Hnum).
  rewrite digitpart_digits; [reflexivity | exact Hdec | left].
  destruct value; [now destruct Hne | discriminate].
Qed.

Lemma get_typed_value_float (schema : gmap string schema_entry) (value compound_id : string)
    (x : float) :
  declared_type schema compound_id = Some "float" -> py_float value = Some x ->
  get_typed_value schema value compound_id = Ok (VFloat x).
Proof.
  intros Hty Hx. unfold get_typed_value, is_float.
  rewrite Hty, Hx. rewrite bool_decide_eq_false_2 by discriminate.
  now rewrite bool_decide_eq_true_2.
Qed.

(** ** Escalation of exempted metrics *)

Section Escalation.
Variable validator : string -> schema_entry -> pyval -> option string.
Variable T : portco_tables.
Variable d : dataset.
Variable schema : gmap string schema_entry.

(** C8, as amended.  For a metric that the file has with the status
    not_applicable or not_available, in a file that has the FTE row:
    - with an empty FTE value, the metric goes to recommended_but_missing,
      with the tier reason if it is a minimum metric and otherwise (tier
      intermediate, full or none) with the reason that the level is unknown;
    - with an FTE value that coerces to [val]: a minimum metric goes to
      recommended_but_missing with the tier reason; an intermediate metric
      goes there with the FTE reason when [val >= 15] and otherwise to blank
      with the reason of its status; a full metric likewise with 250. *)
Theorem exempt_metric_classification (st : classify_state) (cid raw fte : string) :
  metrics d !! cid = Some raw ->
  exempt (default "" (status d !! cid)) = true ->
  metrics d !! FTE = Some fte ->
  let level := tier_level T cid "Value not required" in
  let outcome := classify validator T d schema st cid in
  (fte = "" ->
     outcome = escalated T st cid (if str_eqb level "Minimum" then minimum_reason
                                   else unknown_reason)) /\
  (fte <> "" -> forall val, get_typed_value (SCHEMA_PORTCO T) fte FTE = Ok val ->
     (level = "Minimum" -> outcome = escalated T st cid minimum_reason) /\
     (level = "Intermediate" -> forall above, value_ge val 15 = Ok above ->
        outcome = if above : bool then escalated T st cid intermediate_reason
                  else kept_blank T d st cid) /\
     (level = "Full" -> forall above, value_ge val 250 = Ok above ->
        outcome = if above : bool then escalated T st cid full_reason
                  else kept_blank T d st cid)).
Proof.
  intros Hraw Hex Hfte level outcome. subst outcome.
  unfold classify. rewrite Hraw, Hex.
  unfold classify_exempt, item. rewrite Hfte.
  change (tier_level T cid "Value not required") with level.
  unfold escalated, kept_blank.
  change (tier_level T cid "Value not required") with level.
  split.
  - intros ->. simpl. destruct (str_eqb level "Minimum"); reflexivity.
  - intros Hne val Hval.
    assert (str_eqb fte "" = false) as Hb
      by (unfold str_eqb; now rewrite bool_decide_eq_false_2).
    simpl. rewrite Hb, Hval. simpl. repeat split.
    + intros ->. reflexivity.
    + intros -> above ->. simpl. destruct above; reflexivity.
    + intros -> above ->. simpl. destruct above; reflexivity.
Qed.
End Escalation.

Lemma exempt_metric_classification_witness :
  (exists s,
     run_company (amended [("number_of_ftes_end_of_report_year_female", "", "not_available")])
       = Ok s /\
     "number_of_ftes_end_of_report_year_female" ∈ ids (Summary.recommended_but_missing_lines s)) /\
  (exists s,
     run_company (complete_rows "10" ++
                  [("number_of_ftes_end_of_report_year_female", "", "not_available")]) = Ok s /\
     "number_of_ftes_end_of_report_year_female" ∈ ids (Summary.blank_lines s)) /\
  classify cerberus example_tables
    (organize (amended [("number_of_ftes_end_of_report_year_female", "", "not_available")]))
    (SCHEMA_PORTCO example_tables) (ClassifyState no_lines None)
    "number_of_ftes_end_of_report_year_female"
  = Ok (ClassifyState
          (set_recommended (append (level_reason_line
             "number_of_ftes_end_of_report_year_female" "Intermediate" intermediate_reason))
             no_lines)
          (Some "Intermediate")).
Proof.
  split; [eexists; split; [vm_compute; reflexivity | simpl; in_list]|].
  split; [eexists; split; [vm_compute; reflexivity | simpl; in_list]|].
  destruct (exempt_metric_classification cerberus example_tables
    (organize (amended [("number_of_ftes_end_of_report_year_female", "", "not_available")]))
    (SCHEMA_PORTCO example_tables) (ClassifyState no_lines None)
    "number_of_ftes_end_of_report_year_female" "" "20") as (_ & H).
  - vm_compute. reflexivity.
  - vm_compute. reflexivity.
  - vm_compute. reflexivity.
  - destruct (H ltac:(discriminate) (VFloat 20%float) ltac:(vm_compute; reflexivity))
      as (_ & Hi & _).
    exact (Hi eq_refl true eq_refl).
Defined.

(** The claim of C8 as it stands ties the escalation of an intermediate
    metric to an FTE count of at least 15, and the escalation of any metric
    to a tier that makes it mandatory.  In this file the FTE value is empty:
    an intermediate metric and a metric of no tier, both marked not
    available, are escalated all the same. *)
Lemma escalation_without_threshold :
  exists s,
    run_company (amended [("total_ftes_end_of_report_year", "", "provided");
                          ("number_of_ftes_end_of_report_year_male", "", "not_available");
                          ("listed_ticker", "", "not_available")]) = Ok s /\
    tier_level example_tables "number_of_ftes_end_of_report_year_male" "Value not required"
      = "Intermediate" /\
    tier_level example_tables "listed_ticker" "Value not required" = "Value not required" /\
    (get_typed_value (SCHEMA_PORTCO example_tables) "" FTE ≫= (fun n => value_ge n 15))
      <> Ok true /\
    "number_of_ftes_end_of_report_year_male" ∈ ids (Summary.recommended_but_missing_lines s) /\
    "listed_ticker" ∈ ids (Summary.recommended_but_missing_lines s) /\
    ("number_of_ftes_end_of_report_year_male" ∉ ids (Summary.blank_lines s)) /\
    ("listed_ticker" ∉ ids (Summary.blank_lines s)).
Proof.
  eexists. split; [vm_compute; reflexivity|].
  split; [vm_compute; reflexivity|]. split; [vm_compute; reflexivity|].
  split; [vm_compute; discriminate|].
  split; [simpl; in_list|]. split; [simpl; in_list|].
  split; simpl; apply not_elem_of_nil.
Qed.

(** ** The sum check *)


Section SumCheck.
Variable d : dataset.
Variable schema : gmap string schema_entry.



End SumCheck.


(** ** Funds and GPs *)

Section EntityWhole.
Variable validator : string -> schema_entry -> pyval -> option string.
Variable kind : entity_kind.
Variable T : entity_tables.
Variable d : dataset.
Variable schema : gmap string schema_entry.

Lemma entity_dependents_required (c v : string) (deps : list string) (st : entity_state) :
  required (fold_left (entity_dependent d c v) deps st) = (required st ++ deps)%list.
Proof.
  revert st. induction deps as [|x deps IH]; intros st; simpl.
  - now rewrite app_nil_r.
  - rewrite IH. simpl. now rewrite <- app_assoc.
Qed.

Lemma entity_relations_required (rules : list relation) (st st' : entity_state) :
  for_each (apply_entity_relation kind d) rules st = Ok st' ->
  required st' = (required st ++ triggered_dependents d rules)%list.
Proof.
  revert st. induction rules as [|r rules IH]; intros st H; simpl in H.
  - injection H as <-. simpl. now rewrite app_nil_r.
  - apply bind_ok in H as (mid & H1 & H2). apply IH in H2. rewrite H2.
    simpl. rewrite app_assoc. f_equal.
    destruct r as [cids total|t v fields|total comps p|c v deps]; simpl in H1;
      try discriminate; injection H1 as <-; simpl.
    + now rewrite app_nil_r.
    + unfold entity_conditional. destruct (get_is _ c v).
      * apply entity_dependents_required.
      * now rewrite app_nil_r.
Qed.

Lemma fold_unknown_entity (k : bucket_kind) (b : buckets) (entries : list (string * string)) :
  k <> Unknown ->
  bucket k (fold_left (add_unknown_entity schema) entries b) = bucket k b.
Proof.
  intros Hk. revert b. induction entries as [|e entries IH]; intros b; [reflexivity|].
  simpl. rewrite IH. unfold add_unknown_entity. case_bool_decide; [reflexivity|].
  now apply (bucket_update_ne Unknown k).
Qed.

Lemma validate_entity_inv (rules : list relation) (s : EntitySummary.t) :
  validate_entity validator kind T d schema rules = Ok s ->
  exists b st,
    for_each (classify_entity validator T d schema) (ALL_ENTITY_METRICS T) no_lines = Ok b /\
    for_each (apply_entity_relation kind d) rules
      (EntityState b (REQUIRED_ENTITY_METRICS T)) = Ok st /\
    required st = required_list T d rules /\
    EntitySummary.correct_lines s = valid_lines (es_buckets st) /\
    EntitySummary.error_lines s = error_lines (es_buckets st) /\
    EntitySummary.missing_metrics s = missing_metrics (es_buckets st) /\
    EntitySummary.invalid_lines s =
      match kind with
      | Fund => (length (EntitySummary.error_lines s)
                 + length (EntitySummary.missing_metrics s))%nat
      | Gp => length (EntitySummary.error_lines s)
      end /\
    completion (EntitySummary.correct_lines s) (required_list T d rules)
      = Ok (EntitySummary.percent_completion s).
Proof.
  unfold validate_entity. intros H.
  apply bind_ok in H as (b & H1 & H).
  apply bind_ok in H as (st & H2 & H).
  exists b, st. split; [exact H1|]. split; [exact H2|].
  pose proof (entity_relations_required rules _ st H2) as Hreq. simpl in Hreq.
  split; [exact Hreq|].
  unfold summarize_entity in H. apply bind_ok in H as (pc & Hpc & H).
  injection H as <-. simpl.
  change (valid_lines ?x) with (bucket Valid x).
  change (error_lines ?x) with (bucket Error x).
  change (missing_metrics ?x) with (bucket Missing x).
  rewrite !fold_unknown_entity by discriminate.
  repeat split; try reflexivity.
  unfold completion. rewrite <- Hpc. unfold provided_required_lines. simpl.
  change (valid_lines ?x) with (bucket Valid x).
  rewrite fold_unknown_entity by discriminate.
  unfold required_list. now rewrite <- Hreq.
Qed.
End EntityWhole.

(** C10.  The ["invalid_lines"] of a GP summary is the number of error
    records alone, so that with a missing metric it is less than the number
    of error records plus the number of missing metrics; the
    ["invalid_lines"] of a company summary and of a fund summary is that
    sum. *)
Theorem invalid_lines_by_report_type
    (validator : string -> schema_entry -> pyval -> option string)
    (OPTIONS_GP : list (string * gmap string string)) (fund_tables : entity_tables)
    (company_tables : portco_tables) (d : dataset) (schema : gmap string schema_entry) :
  (forall s, validate_metrics_by_gp validator OPTIONS_GP d schema = Ok s ->
     EntitySummary.invalid_lines s = length (EntitySummary.error_lines s) /\
     (EntitySummary.missing_metrics s <> [] ->
        (EntitySummary.invalid_lines s <
           length (EntitySummary.error_lines s) + length (EntitySummary.missing_metrics s))%nat)) /\
  (forall s, validate_metrics_by_company validator company_tables d schema = Ok s ->
     Summary.invalid_lines s =
       (length (Summary.error_lines s) + length (Summary.missing_metrics s))%nat) /\
  (forall s, validate_metrics_by_fund validator fund_tables d schema = Ok s ->
     EntitySummary.invalid_lines s =
       (length (EntitySummary.error_lines s) + length (EntitySummary.missing_metrics s))%nat).
Proof.
  split; [|split].
  - intros s H. apply validate_entity_inv in H as (b & st & _ & _ & _ & _ & _ & _ & Hinv & _).
    split; [exact Hinv|]. intros Hm. rewrite Hinv.
    destruct (EntitySummary.missing_metrics s); [now destruct Hm | simpl; lia].
  - intros s H. apply validate_with_inv in H as (st & rs & _ & _ & Hsum).
    pose proof (summarize_buckets _ _ _ _ Hsum) as Hb.
    apply summarize_counts in Hsum as (Hinv & _). rewrite Hinv, <- Hb. reflexivity.
  - intros s H. apply validate_entity_inv in H as (b & st & _ & _ & _ & _ & _ & _ & Hinv & _).
    exact Hinv.
Qed.

Lemma invalid_lines_by_report_type_witness :
  (exists s, run_gp [("gp_name", "Acme", "provided"); ("code_of_conduct", "maybe", "provided")]
             = Ok s /\
     EntitySummary.invalid_lines s = 1%nat /\
     length (EntitySummary.error_lines s) = 1%nat /\
     length (EntitySummary.missing_metrics s) = 59%nat) /\
  (exists s, run_company [("company_name", "Acme", "provided"); ("currency", "", "provided")]
             = Ok s /\
     Summary.invalid_lines s = 10%nat /\
     length (Summary.error_lines s) = 1%nat /\
     length (Summary.missing_metrics s) = 9%nat) /\
  (exists s, run_fund [("fund_name", "Acme I", "provided"); ("adhere_to_ungc", "", "provided")]
             = Ok s /\
     EntitySummary.invalid_lines s = 4%nat /\
     length (EntitySummary.error_lines s) = 1%nat /\
     length (EntitySummary.missing_metrics s) = 3%nat).
Proof.
  destruct (invalid_lines_by_report_type cerberus [] example_fund_tables example_tables
    (organize [("gp_name", "Acme", "provided"); ("code_of_conduct", "maybe", "provided")])
    (SCHEMA_GP [])) as (Hgp & _ & _).
  destruct (invalid_lines_by_report_type cerberus [] example_fund_tables example_tables
    (organize [("company_name", "Acme", "provided"); ("currency", "", "provided")])
    (SCHEMA_PORTCO example_tables)) as (_ & Hco & _).
  destruct (invalid_lines_by_report_type cerberus [] example_fund_tables example_tables
    (organize [("fund_name", "Acme I", "provided"); ("adhere_to_ungc", "", "provided")])
    (SCHEMA_ENTITY example_fund_tables)) as (_ & _ & Hfu).
  split; [|split].
  - destruct (run_gp [("gp_name", "Acme", "provided"); ("code_of_conduct", "maybe", "provided")])
      as [s|e] eqn:E; [|vm_compute in E; discriminate E].
    exists s. split; [reflexivity|]. destruct (Hgp s E) as (Hinv & _).
    rewrite Hinv. clear Hinv. vm_compute in E. injection E as <-. simpl. auto.
  - destruct (run_company [("company_name", "Acme", "provided"); ("currency", "", "provided")])
      as [s|e] eqn:E; [|vm_compute in E; discriminate E].
    exists s. split; [reflexivity|]. rewrite (Hco s E).
    vm_compute in E. injection E as <-. simpl. auto.
  - destruct (run_fund [("fund_name", "Acme I", "provided"); ("adhere_to_ungc", "", "provided")])
      as [s|e] eqn:E; [|vm_compute in E; discriminate E].
    exists s. split; [reflexivity|]. rewrite (Hfu s E).
    vm_compute in E. injection E as <-. simpl. auto.
Defined.

(** C4, as amended.  The ["percent_completion"] of a fund or GP summary is
    [round((n / k) * 100, 2)], where [k] is the number of entries of the
    list [required] (the required ids of the tables followed by every
    dependent of a triggered conditional requirement, an id counting once
    for each time it occurs) and [n] is the number of valid records whose id
    occurs in that list; 3 valid records for a list of 5 entries give 60.0. *)
Theorem completion_over_required_list
    (validator : string -> schema_entry -> pyval -> option string)
    (OPTIONS_GP : list (string * gmap string string)) (fund_tables : entity_tables)
    (d : dataset) (schema : gmap string schema_entry) :
  (forall s, validate_metrics_by_fund validator fund_tables d schema = Ok s ->
     completion (EntitySummary.correct_lines s)
       (required_list fund_tables d special_relations_fund)
     = Ok (EntitySummary.percent_completion s)) /\
  (forall s, validate_metrics_by_gp validator OPTIONS_GP d schema = Ok s ->
     completion (EntitySummary.correct_lines s)
       (required_list (gp_tables OPTIONS_GP) d special_relations_gp)
     = Ok (EntitySummary.percent_completion s)) /\
  percentage 3 5 = Ok 60%float.
Proof.
  split; [|split].
  - intros s H. now apply validate_entity_inv in H as (b & st & _ & _ & _ & _ & _ & _ & _ & Hc).
  - intros s H. now apply validate_entity_inv in H as (b & st & _ & _ & _ & _ & _ & _ & _ & Hc).
  - vm_compute. reflexivity.
Qed.

Lemma completion_over_required_list_witness :
  exists s,
    run_gp [("gp_name", "Acme", "provided"); ("number_of_esg_incidents", "yes", "provided")]
      = Ok s /\
    completion (EntitySummary.correct_lines s)
      (required_list (gp_tables [])
         (organize [("gp_name", "Acme", "provided");
                    ("number_of_esg_incidents", "yes", "provided")])
         special_relations_gp)
    = Ok (EntitySummary.percent_completion s) /\
    float_str (EntitySummary.percent_completion s) = "2.27" /\
    length (required_list (gp_tables [])
              (organize [("gp_name", "Acme", "provided");
                         ("number_of_esg_incidents", "yes", "provided")])
              special_relations_gp) = 44%nat.
Proof.
  destruct (run_gp [("gp_name", "Acme", "provided"); ("number_of_esg_incidents", "yes", "provided")])
    as [s|e] eqn:E; [|vm_compute in E; discriminate E].
  exists s. split; [reflexivity|].
  destruct (completion_over_required_list cerberus [] example_fund_tables
    (organize [("gp_name", "Acme", "provided"); ("number_of_esg_incidents", "yes", "provided")])
    (SCHEMA_GP [])) as (_ & Hgp & _).
  split; [exact (Hgp s E)|].
  vm_compute in E. injection E as <-. split; vm_compute; reflexivity.
Defined.

(** The claim of C4 as it stands divides by the size of the required set.
    In this GP file number_of_esg_incidents is "yes", which appends
    qualitative_info_esg_incidents to a list that has it already: the list
    has 44 entries for 43 ids, one valid record is required, and the summary
    reports 2.27 where one in 43 is 2.33. *)
Lemma completion_counts_repetitions :
  exists s,
    run_gp [("gp_name", "Acme", "provided"); ("number_of_esg_incidents", "yes", "provided")]
      = Ok s /\
    let required :=
      required_list (gp_tables [])
        (organize [("gp_name", "Acme", "provided");
                   ("number_of_esg_incidents", "yes", "provided")])
        special_relations_gp in
    length (remove_dups required) = 43%nat /\
    length (filter (fun l => compound_id l ∈ required) (EntitySummary.correct_lines s)) = 1%nat /\
    (float_str <$> percentage 1 43) = Ok "2.33" /\
    (float_str <$> (py_round2 <$> int_truediv (100 * 1) 43)) = Ok "2.33" /\
    float_str (EntitySummary.percent_completion s) = "2.27" /\
    percentage 1 43 <> Ok (EntitySummary.percent_completion s).
Proof.
  eexists. split; [vm_compute; reflexivity|].
  repeat split; try (vm_compute; reflexivity).
  intros E. apply (f_equal (fmap float_str)) in E. vm_compute in E. discriminate E.
Qed.
